(** * Agent/host coordination core of the fleet manager

    A shallow embedding of [service/api.go] (the agent authentication gate,
    the host/task consistency check, the heartbeat, test-log and provisioning
    handlers), of the host event log ([package event]) and of
    [cloud/cloud.go] ([NewIntent]).

    Conventions of the embedding:
    - a Go [string] is a [string] (a sequence of bytes); a missing map key or
      header reads as the empty string, as [map] indexing and [Header.Get] do;
    - [time.Time] and [time.Duration] are integers ([Z]); instant [0] is the
      zero value of [time.Time];
    - the database, the logger, the mailer and the clock form an explicit
      [World]; every call that can fail in the source consults the [Faults]
      of the world and returns an [option error];
    - a handler maps a request and a world to a new world and an [Outcome]:
      the response it wrote, or the panic it raised. *)

From Stdlib Require Import ZArith String Ascii List Lia Bool.
From stdpp Require Import base option gmap strings list pretty.

Import ListNotations.
Local Open Scope string_scope.

Definition error := string.
Definition Time := Z.
Definition Duration := Z.

(** The zero value of [time.Time]. *)
Definition zeroValueTime : Time := 0%Z.

(** [m[k]] on a Go [map[string]string]: the empty string when [k] is absent. *)
Definition index (m : gmap string string) (k : string) : string :=
  default "" (m !! k).

(** ** net/http status codes *)
Module http.
Definition StatusOK : Z := 200.
Definition StatusBadRequest : Z := 400.
Definition StatusUnauthorized : Z := 401.
Definition StatusNotFound : Z := 404.
Definition StatusConflict : Z := 409.
Definition StatusInternalServerError : Z := 500.
End http.

(** ** Constants of package evergreen *)
Module evergreen.
  (** Modelled from the spec: the task-secret header of section 6; the
      constant is declared in package evergreen. *)
Definition TaskSecretHeader : string := "Task-Secret".
  (** Modelled from the spec: the host-identifying header of section 6. *)
Definition HostHeader : string := "Host-Id".
  (** Modelled from the spec: the host-secret header of section 6. *)
Definition HostSecretHeader : string := "Host-Secret".
  (** Modelled from the spec: [status=failed] of the provisioning callback. *)
Definition HostStatusFailed : string := "failed".
  (** Modelled from the spec: the status [Uninitialized] of an intent host. *)
Definition HostUninitialized : string := "initializing".
  (** Modelled from the spec: the status [Provisioned/Running]. *)
Definition HostRunning : string := "running".
  (** Modelled from the spec: the terminal unprovisioned state entered on a
      reported provisioning failure. *)
Definition HostProvisionFailed : string := "provision failed".
End evergreen.

(** ** Records *)
Module distro.
Record Distro := mk { Id : string; User : string; Provider : string }.
End distro.

Module task.
Record Task := mk {
    Id : string;
    Secret : string;
    Aborted : bool;
    Execution : Z;
    LastHeartbeat : Time;
    Version : string;
    Project : string;
    DisplayName : string;
    BuildId : string
  }.

Definition with_LastHeartbeat (t : Task) (x : Time) : Task :=
    mk (Id t) (Secret t) (Aborted t) (Execution t) x (Version t) (Project t)
       (DisplayName t) (BuildId t).
End task.

Module host.
Record ProvisionOptions := mkProvisionOptions {
    LoadCLI : bool; TaskId : string; OwnerId : string
  }.

  (** The field [Host] of the Go struct (the DNS name) is [DNS] here: a
      record and its field cannot share a name. *)
Record Host := mk {
    Id : string;
    DNS : string;
    User : string;
    Tag : string;
    Distro : distro.Distro;
    Provider : string;
    Secret : string;
    Status : string;
    RunningTask : string;
    CreationTime : Time;
    ExpirationTime : Time;
    TerminationTime : Time;
    TaskDispatchTime : Time;
    LastCommunicationTime : Time;
    StartedBy : string;
    UserHost : bool;
    UserData : string;
    ProvisionOptions_ : option ProvisionOptions
  }.

Definition with_Status (h : Host) (x : string) : Host :=
    mk (Id h) (DNS h) (User h) (Tag h) (Distro h) (Provider h) (Secret h) x
       (RunningTask h) (CreationTime h) (ExpirationTime h) (TerminationTime h)
       (TaskDispatchTime h) (LastCommunicationTime h) (StartedBy h)
       (UserHost h) (UserData h) (ProvisionOptions_ h).

Definition with_LastCommunicationTime (h : Host) (x : Time) : Host :=
    mk (Id h) (DNS h) (User h) (Tag h) (Distro h) (Provider h) (Secret h)
       (Status h) (RunningTask h) (CreationTime h) (ExpirationTime h)
       (TerminationTime h) (TaskDispatchTime h) x (StartedBy h)
       (UserHost h) (UserData h) (ProvisionOptions_ h).

Definition with_ExpirationTime (h : Host) (x : Time) : Host :=
    mk (Id h) (DNS h) (User h) (Tag h) (Distro h) (Provider h) (Secret h)
       (Status h) (RunningTask h) (CreationTime h) x
       (TerminationTime h) (TaskDispatchTime h) (LastCommunicationTime h)
       (StartedBy h) (UserHost h) (UserData h) (ProvisionOptions_ h).

Definition with_ProvisionOptions (h : Host) (x : option ProvisionOptions) : Host :=
    mk (Id h) (DNS h) (User h) (Tag h) (Distro h) (Provider h) (Secret h)
       (Status h) (RunningTask h) (CreationTime h) (ExpirationTime h)
       (TerminationTime h) (TaskDispatchTime h) (LastCommunicationTime h)
       (StartedBy h) (UserHost h) (UserData h) x.

Definition with_UserData (h : Host) (x : string) : Host :=
    mk (Id h) (DNS h) (User h) (Tag h) (Distro h) (Provider h) (Secret h)
       (Status h) (RunningTask h) (CreationTime h) (ExpirationTime h)
       (TerminationTime h) (TaskDispatchTime h) (LastCommunicationTime h)
       (StartedBy h) (UserHost h) x (ProvisionOptions_ h).
End host.

Module model.
Record TestLog := mkTestLog {
    Id : string;
    Name : string;
    Task : string;
    TaskExecution : Z;
    Lines : list string
  }.

Definition bind_task (l : TestLog) (t : string) (e : Z) : TestLog :=
    mkTestLog (Id l) (Name l) t e (Lines l).
Definition with_Id (l : TestLog) (i : string) : TestLog :=
    mkTestLog i (Name l) (Task l) (TaskExecution l) (Lines l).
End model.

Module apimodels.
Record HeartbeatResponse := mk { Abort : bool }.
End apimodels.


(** ** Package event: the records of the host event log *)
Module event.
Definition ResourceTypeHost : string := "HOST".

Definition EventHostCreated : string := "HOST_CREATED".
Definition EventHostStatusChanged : string := "HOST_STATUS_CHANGED".
Definition EventHostDNSNameSet : string := "HOST_DNS_NAME_SET".
Definition EventHostProvisionFailed : string := "HOST_PROVISION_FAILED".
Definition EventHostProvisioned : string := "HOST_PROVISIONED".
Definition EventHostRunningTaskSet : string := "HOST_RUNNING_TASK_SET".
Definition EventHostRunningTaskCleared : string := "HOST_RUNNING_TASK_CLEARED".
Definition EventHostTaskPidSet : string := "HOST_TASK_PID_SET".
Definition EventHostMonitorFlag : string := "HOST_MONITOR_FLAG".
Definition EventTaskFinished : string := "HOST_TASK_FINISHED".
Definition EventHostTeardown : string := "HOST_TEARDOWN".

Record HostEventData := mkData {
  ResourceType : string;
  OldStatus : string;
  NewStatus : string;
  Logs : string;
  Hostname : string;
  TaskId : string;
  TaskPid : string;
  TaskStatus : string;
  MonitorOp : string;
  Successful : bool;
  Duration_ : Duration
}.

(** [HostEventData{}]: every field at its zero value. *)
Definition zero : HostEventData :=
  mkData "" "" "" "" "" "" "" "" "" false 0%Z.

Definition with_ResourceType (d : HostEventData) (x : string) : HostEventData :=
  mkData x (OldStatus d) (NewStatus d) (Logs d) (Hostname d) (TaskId d)
         (TaskPid d) (TaskStatus d) (MonitorOp d) (Successful d) (Duration_ d).

Definition IsValid (self : HostEventData) : bool :=
  String.eqb (ResourceType self) ResourceTypeHost.

Record Event := mkEvent {
  Timestamp : Time;
  ResourceId : string;
  EventType : string;
  Data : HostEventData
}.
End event.

(** ** The world a request runs in *)

(** The errors the collaborators return when they fail; [None] is success.
    One field per fallible call of the source. *)
Record Faults := mkFaults {
  task_FindOne_err : option error;
  host_FindOne_err : option error;
  UpdateLastCommunicated_err : option error;
  UpdateHeartbeat_err : option error;
  TestLog_Insert_err : option error;
  LogEvent_err : option error;
  SetUnprovisioned_err : option error;
  MarkAsProvisioned_err : option error;
  NotifyAdmins_err : option error
}.

Definition no_faults : Faults :=
  mkFaults None None None None None None None None None.

(** A provider backend, as far as [hostReady] uses it. *)
Record CloudManager := mkCloudManager {
  GetDNSName : host.Host -> string * option error
}.

Inductive Level := Debug | Info | Warning | Error.

Record World := mkWorld {
  hosts : gmap string host.Host;
  tasks : gmap string task.Task;
  events : list event.Event;
  test_logs : list model.TestLog;
  grip : list (Level * string);
  mail : list (string * string);
  now : Time;
  fresh_id : string;
  providers : gmap string CloudManager;
  faults : Faults
}.

Definition with_hosts (w : World) (x : gmap string host.Host) : World :=
  mkWorld x (tasks w) (events w) (test_logs w) (grip w) (mail w) (now w)
          (fresh_id w) (providers w) (faults w).
Definition with_tasks (w : World) (x : gmap string task.Task) : World :=
  mkWorld (hosts w) x (events w) (test_logs w) (grip w) (mail w) (now w)
          (fresh_id w) (providers w) (faults w).
Definition with_events (w : World) (x : list event.Event) : World :=
  mkWorld (hosts w) (tasks w) x (test_logs w) (grip w) (mail w) (now w)
          (fresh_id w) (providers w) (faults w).
Definition with_test_logs (w : World) (x : list model.TestLog) : World :=
  mkWorld (hosts w) (tasks w) (events w) x (grip w) (mail w) (now w)
          (fresh_id w) (providers w) (faults w).
Definition with_grip (w : World) (x : list (Level * string)) : World :=
  mkWorld (hosts w) (tasks w) (events w) (test_logs w) x (mail w) (now w)
          (fresh_id w) (providers w) (faults w).
Definition with_mail (w : World) (x : list (string * string)) : World :=
  mkWorld (hosts w) (tasks w) (events w) (test_logs w) (grip w) x (now w)
          (fresh_id w) (providers w) (faults w).

(** A line written through the grip logger. *)
Definition grip_log (lvl : Level) (msg : string) (w : World) : World :=
  with_grip w (grip w ++ [(lvl, msg)]).

(** ** Requests, responses, handlers *)

(** [Vars] are the path variables of the matched route ([mux.Vars]);
    [Body] holds the bytes of the request body and [BodyErr] the error that
    ends the stream after them ([None]: a clean end of file); [ctxTask],
    [ctxHost] and [pluginTask] are the values bound to this request in the
    request-scoped context. *)
Record Request := mkRequest {
  Method : string;
  URL : string;
  Vars : gmap string string;
  Header : gmap string string;
  Body : string;
  BodyErr : option error;
  ctxTask : option task.Task;
  ctxHost : option host.Host;
  pluginTask : option task.Task
}.

Definition set_ctxTask (r : Request) (t : task.Task) : Request :=
  mkRequest (Method r) (URL r) (Vars r) (Header r) (Body r) (BodyErr r)
            (Some t) (ctxHost r) (pluginTask r).
Definition set_pluginTask (r : Request) (t : task.Task) : Request :=
  mkRequest (Method r) (URL r) (Vars r) (Header r) (Body r) (BodyErr r)
            (ctxTask r) (ctxHost r) (Some t).
Definition set_ctxHost (r : Request) (h : host.Host) : Request :=
  mkRequest (Method r) (URL r) (Vars r) (Header r) (Body r) (BodyErr r)
            (ctxTask r) (Some h) (pluginTask r).

Inductive Payload :=
| Plain (text : string)
| JSONError (msg : string)
| JSONString (s : string)
| JSONHeartbeat (hb : apimodels.HeartbeatResponse)
| JSONLogReply (id : string)
| JSONTask (t : task.Task)
| NoBody.

Record Response := mkResponse { Code : Z; Content : Payload }.

Inductive Outcome :=
| Responded (resp : Response)
| Panicked (msg : string).

Definition HandlerFunc := Request -> World -> World * Outcome.

(** The status code a handler answered with, if it answered. *)
Definition status_of (o : Outcome) : option Z :=
  match o with
  | Responded resp => Some (Code resp)
  | Panicked _ => None
  end.

Definition http_Error (msg : string) (code : Z) : Outcome :=
  Responded (mkResponse code (Plain msg)).

Definition WriteJSON (code : Z) (p : Payload) : Outcome :=
  Responded (mkResponse code p).

(** [strings.HasPrefix]. *)
Definition HasPrefix (s p : string) : bool := String.prefix p s.

Definition LoggedError (r : Request) (w : World) (code : Z) (err : error)
  : World * Outcome :=
  let w := grip_log Error (Method r ++ " " ++ URL r ++ " " ++ err) w in
  if HasPrefix (index (Header r) "accept") "application/json"
  then (w, WriteJSON code (JSONError err))
  else (w, http_Error err code).

(** ** Calls into the persistence layer *)

(** Modelled from the spec: [task.FindOne(task.ById(id))] looks the Task
    record up by id; no record is [(nil, nil)], a failed query [(nil, err)]. *)
Definition task_FindOne (w : World) (id : string)
  : option task.Task * option error :=
  match task_FindOne_err (faults w) with
  | Some e => (None, Some e)
  | None => (tasks w !! id, None)
  end.

(** Modelled from the spec: [host.FindOne(host.ById(id))] looks the Host
    record up by id; no record is [(nil, nil)], a failed query [(nil, err)]. *)
Definition host_FindOne (w : World) (id : string)
  : option host.Host * option error :=
  match host_FindOne_err (faults w) with
  | Some e => (None, Some e)
  | None => (hosts w !! id, None)
  end.

(** Modelled from the spec: an update of the Host record with the given id;
    it fails when the store holds no such record. *)
Definition host_UpdateOne (id : string) (f : host.Host -> host.Host) (w : World)
  : World * option error :=
  match hosts w !! id with
  | None => (w, Some "not found")
  | Some h => (with_hosts w (<[id := f h]> (hosts w)), None)
  end.

(** Modelled from the spec: [Host.UpdateLastCommunicated] stamps the host's
    last-communication time with the current time, in the store and, once
    that succeeded, in the value at hand; on failure nothing is written. *)
Definition UpdateLastCommunicated (h : host.Host) (w : World)
  : World * host.Host * option error :=
  match UpdateLastCommunicated_err (faults w) with
  | Some e => (w, h, Some e)
  | None =>
      let stamp x := host.with_LastCommunicationTime x (now w) in
      match host_UpdateOne (host.Id h) stamp w with
      | (w1, Some e) => (w1, h, Some e)
      | (w1, None) => (w1, stamp h, None)
      end
  end.

(** Modelled from the spec: [Task.UpdateHeartbeat] stamps the task's
    heartbeat time with the current time; it fails when the store does or
    when it holds no record of the task. *)
Definition UpdateHeartbeat (t : task.Task) (w : World) : World * option error :=
  match UpdateHeartbeat_err (faults w) with
  | Some e => (w, Some e)
  | None =>
      match tasks w !! task.Id t with
      | None => (w, Some "not found")
      | Some t' =>
          (with_tasks w (<[task.Id t := task.with_LastHeartbeat t' (now w)]> (tasks w)),
           None)
      end
  end.

(** ** The authentication gate *)

(** [checkTask]: resolves the task named in the path, verifies its secret
    when asked to, binds it into the request and runs [next]. *)
Definition checkTask (checkSecret : bool) (next : HandlerFunc) : HandlerFunc :=
  fun r w =>
    let taskId := index (Vars r) "taskId" in
    if String.eqb taskId "" then
      LoggedError r w http.StatusBadRequest "missing task id"
    else
      let '(t, err) := task_FindOne w taskId in
      match err with
      | Some e => LoggedError r w http.StatusInternalServerError e
      | None =>
          match t with
          | None => LoggedError r w http.StatusNotFound "task not found"
          | Some t =>
              let secret := index (Header r) evergreen.TaskSecretHeader in
              if checkSecret && negb (String.eqb secret (task.Secret t)) then
                (grip_log Error
                   ("Wrong secret sent for task " ++ taskId ++ ": Expected "
                    ++ task.Secret t ++ " but got " ++ secret) w,
                 http_Error "wrong secret!" http.StatusConflict)
              else
                next (set_pluginTask (set_ctxTask r t) t) w
          end
      end.

(** The part of [checkHost] that runs once a host id is at hand. *)
Definition checkHost_resolved (next : HandlerFunc) (hostId : string)
  : HandlerFunc :=
  fun r w =>
    let secret := index (Header r) evergreen.HostSecretHeader in
    let '(h, err) := host_FindOne w hostId in
    match h with
    | None =>
        LoggedError r w http.StatusBadRequest ("Host " ++ hostId ++ " not found")
    | Some h =>
        match err with
        | Some e =>
            LoggedError r w http.StatusInternalServerError
              ("Error loading context for host " ++ hostId ++ ": " ++ e)
        | None =>
            if negb (String.eqb secret "")
               && negb (String.eqb secret (host.Secret h)) then
              LoggedError r w http.StatusConflict
                ("Invalid host secret for host " ++ host.Id h)
            else
              let mismatch :=
                match ctxTask r with
                | Some t => negb (String.eqb (host.RunningTask h) (task.Id t))
                | None => false
                end in
              if mismatch then
                LoggedError r w http.StatusConflict
                  ("Host " ++ host.Id h ++ " should be running "
                   ++ host.RunningTask h ++ ", not "
                   ++ from_option task.Id "" (ctxTask r))
              else
                let '(w1, h1, uerr) := UpdateLastCommunicated h w in
                let w2 :=
                  match uerr with
                  | Some e =>
                      grip_log Warning
                        ("Could not update host last communication time for "
                         ++ host.Id h1 ++ ": " ++ e) w1
                  | None => w1
                  end in
                next (set_ctxHost r h1) w2
        end
    end.

(** [checkHost]: the host id comes from the path, else from the host header;
    with neither, the host logic is skipped. *)
Definition checkHost (next : HandlerFunc) : HandlerFunc :=
  fun r w =>
    let hostId := index (Vars r) "hostId" in
    if String.eqb hostId "" then
      let hostId := index (Header r) evergreen.HostHeader in
      if String.eqb hostId "" then
        next r (grip_log Warning
                  ("Request " ++ URL r ++ " is missing host information") w)
      else checkHost_resolved next hostId r w
    else checkHost_resolved next hostId r w.

(** [GetTask], [GetHost], [MustHaveTask] and [MustHaveHost]. *)
Definition GetTask (r : Request) : option task.Task := ctxTask r.
Definition GetHost (r : Request) : option host.Host := ctxHost r.

Definition MustHaveTask (r : Request) : task.Task + string :=
  match GetTask r with
  | Some t => inl t
  | None => inr "no task attached to request"
  end.

Definition MustHaveHost (r : Request) : host.Host + string :=
  match GetHost r with
  | Some h => inl h
  | None => inr "no host attached to request"
  end.

(** ** Test-log ingestion *)

Definition maxTestLogSize : Z := 16 * 1024 * 1024.

Module io.
(** [io.LimitedReader]: [data] and [err] are the bytes the wrapped reader
    still holds and the error that follows them; [N] is the number of bytes
    the reader may still hand out. *)
Record LimitedReader := mk { data : string; err : option error; N : Z }.
End io.

(** [ioutil.ReadAll] on a plain reader: the bytes, and the error that ended
    the stream unless it was the end of file. *)
Definition ReadAll (body : string) (berr : option error)
  : string * option error := (body, berr).

(** [ioutil.ReadAll] on a [LimitedReader]. [Read] answers end-of-file once
    [N <= 0]; before that it passes at most [N] bytes on and lowers [N] by
    the number of bytes read. *)
Definition ReadAll_limited (lr : io.LimitedReader)
  : string * option error * io.LimitedReader :=
  let len := Z.of_nat (String.length (io.data lr)) in
  if (io.N lr <=? 0)%Z then ("", None, lr)
  else if (io.N lr <=? len)%Z then
    (substring 0 (Z.to_nat (io.N lr)) (io.data lr), None,
     io.mk (substring (Z.to_nat (io.N lr)) (Z.to_nat (len - io.N lr)) (io.data lr))
           (io.err lr) 0)
  else
    (io.data lr, io.err lr, io.mk "" (io.err lr) (io.N lr - len)%Z).

(** Modelled from the spec: [TestLog.Insert] persists the log record under a
    fresh id; on failure nothing is written. *)
Definition TestLog_Insert (l : model.TestLog) (w : World)
  : World * model.TestLog * option error :=
  match TestLog_Insert_err (faults w) with
  | Some e => (w, l, Some e)
  | None =>
      let l1 := model.with_Id l (fresh_id w) in
      (with_test_logs w (test_logs w ++ [l1]), l1, None)
  end.

Section Handlers.

(** [json.Unmarshal] into a [model.TestLog]: the decoded log, or the
    decoder's error. *)
Variable Unmarshal_TestLog : string -> model.TestLog + error.

(** [util.ReadJSONInto] over the limited reader: the helper is declared in
    package util; it drains the reader and unmarshals the bytes it read. *)
Definition ReadJSONInto_TestLog (lr : io.LimitedReader)
  : (model.TestLog + error) * io.LimitedReader :=
  let '(bytes, rerr, lr1) := ReadAll_limited lr in
  match rerr with
  | Some e => (inr e, lr1)
  | None => (Unmarshal_TestLog bytes, lr1)
  end.

Definition AttachTestLog : HandlerFunc :=
  fun r w =>
    match MustHaveTask r with
    | inr msg => (w, Panicked msg)
    | inl t =>
        let lr := io.mk (Body r) (BodyErr r) maxTestLogSize in
        let '(res, lr) := ReadJSONInto_TestLog lr in
        if (io.N lr =? 0)%Z then
          LoggedError r w http.StatusBadRequest
            ("test log size exceeds " ++ pretty maxTestLogSize ++ " bytes")
        else
          match res with
          | inr e => LoggedError r w http.StatusBadRequest e
          | inl log =>
              let log := model.bind_task log (task.Id t) (task.Execution t) in
              let '(w1, log, ierr) := TestLog_Insert log w in
              match ierr with
              | Some e => LoggedError r w1 http.StatusInternalServerError e
              | None => (w1, WriteJSON http.StatusOK (JSONLogReply (model.Id log)))
              end
          end
    end.

End Handlers.

(** ** Heartbeat *)

Definition FetchTask : HandlerFunc :=
  fun r w =>
    match MustHaveTask r with
    | inr msg => (w, Panicked msg)
    | inl t => (w, WriteJSON http.StatusOK (JSONTask t))
    end.

Definition Heartbeat : HandlerFunc :=
  fun r w =>
    match MustHaveTask r with
    | inr msg => (w, Panicked msg)
    | inl t =>
        let heartbeatResponse :=
          if task.Aborted t then apimodels.mk true else apimodels.mk false in
        let '(w1, _) := UpdateHeartbeat t w in
        (w1, WriteJSON http.StatusOK (JSONHeartbeat heartbeatResponse))
    end.

(** ** The host event log *)

(** [DBEventLogger.LogEvent]: appends the event to the log collection. *)
Definition LogEvent (e : event.Event) (w : World) : World * option error :=
  match LogEvent_err (faults w) with
  | Some err => (w, Some err)
  | None => (with_events w (events w ++ [e]), None)
  end.

Definition LogHostEvent (hostId eventType : string)
           (eventData : event.HostEventData) (w : World) : World :=
  let eventData := event.with_ResourceType eventData event.ResourceTypeHost in
  let e := event.mkEvent (now w) hostId eventType eventData in
  let '(w1, err) := LogEvent e w in
  match err with
  | Some e => grip_log Error ("Error logging host event: " ++ e) w1
  | None => w1
  end.

Definition LogHostCreated (hostId : string) : World -> World :=
  LogHostEvent hostId event.EventHostCreated event.zero.

Definition LogHostStatusChanged (hostId oldStatus newStatus : string)
  : World -> World :=
  fun w =>
    if String.eqb oldStatus newStatus then w
    else
      LogHostEvent hostId event.EventHostStatusChanged
        (event.mkData "" oldStatus newStatus "" "" "" "" "" "" false 0%Z) w.

Definition LogHostDNSNameSet (hostId dnsName : string) : World -> World :=
  LogHostEvent hostId event.EventHostDNSNameSet
    (event.mkData "" "" "" "" dnsName "" "" "" "" false 0%Z).

Definition LogHostProvisioned (hostId : string) : World -> World :=
  LogHostEvent hostId event.EventHostProvisioned event.zero.

Definition LogHostRunningTaskSet (hostId taskId : string) : World -> World :=
  LogHostEvent hostId event.EventHostRunningTaskSet
    (event.mkData "" "" "" "" "" taskId "" "" "" false 0%Z).

Definition LogHostRunningTaskCleared (hostId taskId : string) : World -> World :=
  LogHostEvent hostId event.EventHostRunningTaskCleared
    (event.mkData "" "" "" "" "" taskId "" "" "" false 0%Z).

Definition LogHostTaskPidSet (hostId taskPid : string) : World -> World :=
  LogHostEvent hostId event.EventHostTaskPidSet
    (event.mkData "" "" "" "" "" "" taskPid "" "" false 0%Z).

Definition LogProvisionFailed (hostId setupLogs : string) : World -> World :=
  LogHostEvent hostId event.EventHostProvisionFailed
    (event.mkData "" "" "" setupLogs "" "" "" "" "" false 0%Z).

Definition LogHostTeardown (hostId teardownLogs : string) (success : bool)
           (duration : Duration) : World -> World :=
  LogHostEvent hostId event.EventHostTeardown
    (event.mkData "" "" "" teardownLogs "" "" "" "" "" success duration).

Definition LogMonitorOperation (hostId op : string) : World -> World :=
  LogHostEvent hostId event.EventHostMonitorFlag
    (event.mkData "" "" "" "" "" "" "" "" op false 0%Z).

(** ** The provisioning callback *)

Module notify.
(** The preface of provisioning-failure mails; declared in package notify. *)
Definition ProvisionFailurePreface : string := "[PROVISION-FAILURE]".
End notify.

(** The settings [hostReady] reads from its receiver. *)
Record APIServer := mkAPIServer { Settings_Ui_Url : string }.

(** Modelled from the spec: [notify.NotifyAdmins] attempts to mail the
    operators; the attempt is recorded whether or not delivery succeeds. *)
Definition NotifyAdmins (subject message : string) (w : World)
  : World * option error :=
  (with_mail w (mail w ++ [(subject, message)]), NotifyAdmins_err (faults w)).

(** Modelled from the spec: [Host.SetUnprovisioned] moves the stored host to
    the terminal unprovisioned state. *)
Definition SetUnprovisioned (h : host.Host) (w : World) : World * option error :=
  match SetUnprovisioned_err (faults w) with
  | Some e => (w, Some e)
  | None =>
      host_UpdateOne (host.Id h)
        (fun x => host.with_Status x evergreen.HostProvisionFailed) w
  end.

(** Modelled from the spec: [Host.MarkAsProvisioned] marks the stored host
    provisioned and, the write done, records the change in the host event
    log. *)
Definition MarkAsProvisioned (h : host.Host) (w : World) : World * option error :=
  match MarkAsProvisioned_err (faults w) with
  | Some e => (w, Some e)
  | None =>
      match host_UpdateOne (host.Id h)
              (fun x => host.with_Status x evergreen.HostRunning) w with
      | (w1, Some e) => (w1, Some e)
      | (w1, None) => (LogHostProvisioned (host.Id h) w1, None)
      end
  end.

(** Modelled from the spec: [providers.GetCloudManager] selects the manager
    by the host's stored provider name. *)
Definition GetCloudManager (providerName : string) (w : World)
  : CloudManager + error :=
  match providers w !! providerName with
  | Some m => inl m
  | None => inr ("No known provider for '" ++ providerName ++ "'")
  end.

Definition getHostFromRequest (r : Request) (w : World) : host.Host + error :=
  let tag := index (Vars r) "tag" in
  if (String.length tag =? 0)%nat then inr "no host tag supplied"
  else
    let '(h, err) := host_FindOne w tag in
    match h with
    | None => inr ("no host with tag: " ++ tag)
    | Some h =>
        match err with
        | Some e => inr e
        | None => inl h
        end
    end.

(** The mail-and-log step shared by both notifications of [hostReady]. *)
Definition notify_or_log (subject message : string) (w : World) : World :=
  let '(w1, err) := NotifyAdmins subject message w in
  match err with
  | Some e => grip_log Error ("Error sending email: " ++ e) w1
  | None => w1
  end.

Definition hostReady (as_ : APIServer) : HandlerFunc :=
  fun r w =>
    match getHostFromRequest r w with
    | inr e => (grip_log Error e w, http_Error e http.StatusBadRequest)
    | inl hostObj =>
        let setupSuccess := index (Vars r) "status" in
        if String.eqb setupSuccess evergreen.HostStatusFailed then
          let w := grip_log Info
                     ("Initializing host " ++ host.Id hostObj ++ " failed") w in
          let subject :=
            notify.ProvisionFailurePreface
            ++ " Evergreen provisioning failure on "
            ++ distro.Id (host.Distro hostObj) in
          let hostLink := Settings_Ui_Url as_ ++ "/host/" ++ host.Id hostObj in
          let message :=
            "Provisioning failed on " ++ distro.Id (host.Distro hostObj)
            ++ " host -- " ++ host.Id hostObj ++ " (" ++ host.DNS hostObj
            ++ "). " ++ hostLink in
          let w := notify_or_log subject message w in
          let '(setupLog, rerr) := ReadAll (Body r) (BodyErr r) in
          match rerr with
          | Some e => LoggedError r w http.StatusInternalServerError e
          | None =>
              let w := LogProvisionFailed (host.Id hostObj) setupLog w in
              let '(w, uerr) := SetUnprovisioned hostObj w in
              match uerr with
              | Some e => LoggedError r w http.StatusInternalServerError e
              | None =>
                  (w, WriteJSON http.StatusOK
                        (JSONString ("Initializing host " ++ host.Id hostObj
                                     ++ " failed")))
              end
          end
        else
          match GetCloudManager (host.Provider hostObj) w with
          | inr e =>
              let '(w, out) := LoggedError r w http.StatusInternalServerError e in
              let subject :=
                notify.ProvisionFailurePreface
                ++ " Evergreen provisioning completion failure on "
                ++ distro.Id (host.Distro hostObj) in
              let message :=
                "Failed to get cloud manager for host " ++ host.Id hostObj
                ++ " with provider " ++ host.Provider hostObj ++ ": " ++ e in
              (notify_or_log subject message w, out)
          | inl cloudManager =>
              let '(dns, derr) := GetDNSName cloudManager hostObj in
              match derr with
              | Some e => LoggedError r w http.StatusInternalServerError e
              | None =>
                  let '(w, merr) := MarkAsProvisioned hostObj w in
                  match merr with
                  | Some e => LoggedError r w http.StatusInternalServerError e
                  | None =>
                      (grip_log Info
                         ("Successfully marked host '" ++ host.Id hostObj
                          ++ "' with dns '" ++ dns ++ "' as provisioned") w,
                       Responded (mkResponse http.StatusOK NoBody))
                  end
              end
          end
    end.

(** ** Package cloud: intent hosts *)
Module cloud.
Record HostOptions := mkHostOptions {
  ProvisionOptions : option host.ProvisionOptions;
  ExpirationDuration : option Duration;
  UserName : string;
  UserData : string;
  UserHost : bool
}.
End cloud.

(** [Time.Add]. *)
Definition Time_Add (t : Time) (d : Duration) : Time := (t + d)%Z.

Section Intent.

(** [util.ZeroTime], declared in package util. *)
Variable ZeroTime : Time.

(** [NewIntent]; [creationTime] is what [time.Now()] returns in the call.
    Fields the struct literal leaves out hold their zero values. *)
Definition NewIntent (creationTime : Time) (d : distro.Distro)
           (instanceName provider : string) (options : cloud.HostOptions)
  : host.Host :=
  let intentHost :=
    {| host.Id := instanceName;
       host.DNS := "";
       host.User := distro.User d;
       host.Tag := instanceName;
       host.Distro := d;
       host.Provider := provider;
       host.Secret := "";
       host.Status := evergreen.HostUninitialized;
       host.RunningTask := "";
       host.CreationTime := creationTime;
       host.ExpirationTime := zeroValueTime;
       host.TerminationTime := ZeroTime;
       host.TaskDispatchTime := ZeroTime;
       host.LastCommunicationTime := zeroValueTime;
       host.StartedBy := cloud.UserName options;
       host.UserHost := cloud.UserHost options;
       host.UserData := "";
       host.ProvisionOptions_ := None |} in
  let intentHost :=
    match cloud.ExpirationDuration options with
    | Some d => host.with_ExpirationTime intentHost (Time_Add creationTime d)
    | None => intentHost
    end in
  let intentHost :=
    match cloud.ProvisionOptions options with
    | Some po => host.with_ProvisionOptions intentHost (Some po)
    | None => intentHost
    end in
  let intentHost :=
    if negb (String.eqb (cloud.UserData options) "")
    then host.with_UserData intentHost (cloud.UserData options)
    else intentHost in
  intentHost.

End Intent.

(** ** Derived notions used to state the properties *)

(** The host id [checkHost] works with: the path variable, else the host
    header. *)
Definition requestHostId (r : Request) : string :=
  let hostId := index (Vars r) "hostId" in
  if String.eqb hostId "" then index (Header r) evergreen.HostHeader
  else hostId.

(** The secret the caller supplied for the host. *)
Definition suppliedHostSecret (r : Request) : string :=
  index (Header r) evergreen.HostSecretHeader.

(** ** A small fleet used for concrete runs *)

Definition d0 : distro.Distro := distro.mk "ubuntu1604" "ubuntu" "ec2".

Definition h1 : host.Host :=
  {| host.Id := "h1"; host.DNS := "h1.example.net"; host.User := "ubuntu";
     host.Tag := "h1"; host.Distro := d0; host.Provider := "ec2";
     host.Secret := "s3cret"; host.Status := "provisioning";
     host.RunningTask := "t1"; host.CreationTime := 100%Z;
     host.ExpirationTime := 0%Z; host.TerminationTime := 0%Z;
     host.TaskDispatchTime := 0%Z; host.LastCommunicationTime := 500%Z;
     host.StartedBy := "mci"; host.UserHost := false; host.UserData := "";
     host.ProvisionOptions_ := None |}.

Definition t1 : task.Task :=
  task.mk "t1" "tsecret" true 0%Z 400%Z "v1" "proj" "compile" "b1".

Definition t2 : task.Task :=
  task.mk "t2" "other" false 0%Z 400%Z "v1" "proj" "test" "b1".

Definition world0 : World :=
  {| hosts := {[ "h1" := h1 ]};
     tasks := {[ "t1" := t1 ]};
     events := [];
     test_logs := [];
     grip := [];
     mail := [];
     now := 1000%Z;
     fresh_id := "log-1";
     providers := ∅;
     faults := no_faults |}.

(** A downstream handler that only answers. *)
Definition downstream : HandlerFunc :=
  fun r w => (w, WriteJSON http.StatusOK (JSONString "downstream ran")).

Definition request0 : Request :=
  mkRequest "POST" "/api/2/agent/next_task" ∅ ∅ "" None None None None.

Definition with_Vars (r : Request) (x : gmap string string) : Request :=
  mkRequest (Method r) (URL r) x (Header r) (Body r) (BodyErr r)
            (ctxTask r) (ctxHost r) (pluginTask r).
Definition with_Header (r : Request) (x : gmap string string) : Request :=
  mkRequest (Method r) (URL r) (Vars r) x (Body r) (BodyErr r)
            (ctxTask r) (ctxHost r) (pluginTask r).
Definition with_URL (r : Request) (x : string) : Request :=
  mkRequest (Method r) x (Vars r) (Header r) (Body r) (BodyErr r)
            (ctxTask r) (ctxHost r) (pluginTask r).
Definition with_Body (r : Request) (x : string) : Request :=
  mkRequest (Method r) (URL r) (Vars r) (Header r) x (BodyErr r)
            (ctxTask r) (ctxHost r) (pluginTask r).

(** Host [h1] named in the header, no host secret attached. *)
Definition req_h1_no_secret : Request :=
  with_Header request0 {[ evergreen.HostHeader := "h1" ]}.

(** Host [h1] named in the header, with a wrong host secret. *)
Definition req_h1_wrong_secret : Request :=
  with_Header request0
    (<[ evergreen.HostSecretHeader := "guess" ]> {[ evergreen.HostHeader := "h1" ]}).

(** A host id no record exists for. *)
Definition req_ghost : Request :=
  with_Vars request0 {[ "hostId" := "ghost" ]}.

(** A task id no record exists for. *)
Definition req_no_task : Request :=
  with_Vars (with_URL request0 "/api/2/task/nope/start") {[ "taskId" := "nope" ]}.

(** Host [h1], rightly authenticated, on a request bound to task [t2]. *)
Definition req_h1_t2 : Request :=
  set_ctxTask
    (with_Header request0
       (<[ evergreen.HostSecretHeader := "s3cret" ]> {[ evergreen.HostHeader := "h1" ]}))
    t2.

(** Host [h1] reports [failed] with its setup log as the body. *)
Definition req_ready_failed : Request :=
  with_Body
    (with_Vars (with_URL request0 "/api/2/host/h1/ready/failed")
               (<[ "status" := "failed" ]> {[ "tag" := "h1" ]}))
    "boot error: disk full".


(** A heartbeat for task [t1]. *)
Definition req_heartbeat_t1 : Request :=
  set_ctxTask (with_URL request0 "/api/2/task/t1/heartbeat") t1.

(** [n] copies of [c] followed by [rest]. *)
Fixpoint fill (n : nat) (c : ascii) (rest : string) : string :=
  match n with
  | O => rest
  | S n => String c (fill n c rest)
  end.

(** The double-quote character. *)
Definition quote : string := String "034"%char EmptyString.

(** The JSON text of a test log with one line of [n] bytes: an object with
    the single member [lines], an array holding one string of [n] times the
    letter x. It is 14 bytes longer than the line. *)
Definition test_log_json (n : nat) : string :=
  ("{" ++ quote ++ "lines" ++ quote ++ ":[" ++ quote)
  ++ fill n "x"%char (quote ++ "]}").

(** A well-formed request body of exactly [maxTestLogSize] bytes. *)
Definition cap_sized_body : string :=
  test_log_json (Z.to_nat (maxTestLogSize - 14)).

(** A test-log upload for task [t1] with the given body. *)
Definition req_test_log (body : string) : Request :=
  with_Body (set_ctxTask (with_URL request0 "/api/2/task/t1/test_logs") t1) body.

(** A decoder that takes every body for a well-formed test log. *)
Definition decode_any (_ : string) : model.TestLog + error :=
  inl (model.mkTestLog "" "unit-tests" "" 0%Z []).

(** The calls of the host event log, one per helper of the package. *)
Inductive HostLogCall :=
| CallHostEvent (hostId eventType : string) (data : event.HostEventData)
| CallCreated (hostId : string)
| CallStatusChanged (hostId oldStatus newStatus : string)
| CallDNSNameSet (hostId dnsName : string)
| CallProvisioned (hostId : string)
| CallRunningTaskSet (hostId taskId : string)
| CallRunningTaskCleared (hostId taskId : string)
| CallTaskPidSet (hostId taskPid : string)
| CallProvisionFailed (hostId setupLogs : string)
| CallTeardown (hostId teardownLogs : string) (success : bool) (duration : Duration)
| CallMonitorOperation (hostId op : string).

Definition run_call (c : HostLogCall) : World -> World :=
  match c with
  | CallHostEvent hostId eventType data => LogHostEvent hostId eventType data
  | CallCreated hostId => LogHostCreated hostId
  | CallStatusChanged hostId o n => LogHostStatusChanged hostId o n
  | CallDNSNameSet hostId dns => LogHostDNSNameSet hostId dns
  | CallProvisioned hostId => LogHostProvisioned hostId
  | CallRunningTaskSet hostId taskId => LogHostRunningTaskSet hostId taskId
  | CallRunningTaskCleared hostId taskId => LogHostRunningTaskCleared hostId taskId
  | CallTaskPidSet hostId pid => LogHostTaskPidSet hostId pid
  | CallProvisionFailed hostId logs => LogProvisionFailed hostId logs
  | CallTeardown hostId logs ok d => LogHostTeardown hostId logs ok d
  | CallMonitorOperation hostId op => LogMonitorOperation hostId op
  end.

(** Every event of the log carries valid host data. *)
Definition all_valid (w : World) : Prop :=
  Forall (fun e => event.IsValid (event.Data e) = true) (events w).

(** ** Package cloud: instance status codes *)

(** [CloudStatus] is an [int]; the seven named codes are [iota] values. *)
Definition CloudStatus := Z.
Definition StatusUnknown : CloudStatus := 0%Z.
Definition StatusPending : CloudStatus := 1%Z.
Definition StatusInitializing : CloudStatus := 2%Z.
Definition StatusFailed : CloudStatus := 3%Z.
Definition StatusRunning : CloudStatus := 4%Z.
Definition StatusStopped : CloudStatus := 5%Z.
Definition StatusTerminated : CloudStatus := 6%Z.

(** [CloudStatus.String]: the cases in the order of the [switch]. *)
Definition CloudStatus_String (stat : CloudStatus) : string :=
  if (stat =? StatusPending)%Z then "pending"
  else if (stat =? StatusFailed)%Z then "failed"
  else if (stat =? StatusInitializing)%Z then "initializing"
  else if (stat =? StatusRunning)%Z then "running"
  else if (stat =? StatusStopped)%Z then "stopped"
  else if (stat =? StatusTerminated)%Z then "terminated"
  else "unknown".

(** The named status codes. *)
Definition named_statuses : list CloudStatus :=
  [StatusUnknown; StatusPending; StatusInitializing; StatusFailed;
   StatusRunning; StatusStopped; StatusTerminated].

(** ** Routes of [Handler] *)

(** The wiring of the agent's task routes: [checkTask] outside, [checkHost]
    inside, the handler last. *)
Definition taskRoute (checkSecret : bool) (h : HandlerFunc) : HandlerFunc :=
  checkTask checkSecret (checkHost h).

(** [/task/{taskId}/heartbeat]. *)
Definition route_heartbeat : HandlerFunc := taskRoute true Heartbeat.


(** Whether a handler ended in a panic. *)
Definition panicked (o : Outcome) : bool :=
  match o with
  | Panicked _ => true
  | Responded _ => false
  end.

(** A run of calls of the host event log, in order. *)
Definition run_calls (cs : list HostLogCall) (w : World) : World :=
  fold_left (fun w c => run_call c w) cs w.

(** Whether a call reaches [LogHostEvent]: all do but a status change to
    the same status. *)
Definition reaches_log (c : HostLogCall) : bool :=
  match c with
  | CallStatusChanged _ o n => negb (String.eqb o n)
  | _ => true
  end.

(** The stores a request can write to, without the logger. *)
Definition same_stores (w w' : World) : Prop :=
  hosts w' = hosts w /\ tasks w' = tasks w /\ events w' = events w
  /\ test_logs w' = test_logs w /\ mail w' = mail w.

(** Task [t1] asked for with its secret. *)
Definition req_fetch_t1 : Request :=
  with_Header
    (with_Vars (with_URL request0 "/api/2/task/t1/") {[ "taskId" := "t1" ]})
    {[ evergreen.TaskSecretHeader := "tsecret" ]}.

(** Task [t1] asked for with no secret. *)
Definition req_fetch_t1_no_secret : Request :=
  with_Vars (with_URL request0 "/api/2/task/t1/") {[ "taskId" := "t1" ]}.

(** A heartbeat for [t1] from host [h1], both rightly authenticated. *)
Definition req_agent_heartbeat : Request :=
  with_Header
    (with_Vars (with_URL request0 "/api/2/task/t1/heartbeat")
               {[ "taskId" := "t1" ]})
    (<[ evergreen.HostSecretHeader := "s3cret" ]>
       (<[ evergreen.HostHeader := "h1" ]>
          {[ evergreen.TaskSecretHeader := "tsecret" ]})).

(** The same fleet with the host store refusing updates of the
    last-communication time. *)
Definition world_no_stamp : World :=
  mkWorld (hosts world0) (tasks world0) (events world0) (test_logs world0)
          (grip world0) (mail world0) (now world0) (fresh_id world0)
          (providers world0)
          (mkFaults None None (Some "write conflict") None None None None None
                    None).

(** A provider whose instances answer with a DNS name. *)
Definition ec2 : CloudManager :=
  mkCloudManager (fun h => (host.Id h ++ ".compute.example.net", None)).

(** A provider whose DNS lookup fails. *)
Definition flaky : CloudManager :=
  mkCloudManager (fun _ => ("", Some "dns: timeout")).

(** The fleet with the provider of [h1] configured. *)
Definition world_ec2 : World :=
  mkWorld (hosts world0) (tasks world0) (events world0) (test_logs world0)
          (grip world0) (mail world0) (now world0) (fresh_id world0)
          {[ "ec2" := ec2 ]} no_faults.

(** The fleet with a provider for [h1] that cannot resolve names. *)
Definition world_flaky : World :=
  mkWorld (hosts world0) (tasks world0) (events world0) (test_logs world0)
          (grip world0) (mail world0) (now world0) (fresh_id world0)
          {[ "ec2" := flaky ]} no_faults.

(** Host [h1] reports [success]. *)
Definition req_ready_success : Request :=
  with_Vars (with_URL request0 "/api/2/host/h1/ready/success")
            (<[ "status" := "success" ]> {[ "tag" := "h1" ]}).

(** Host [h1] reports [failed]; the body breaks off with an error. *)
Definition req_ready_failed_broken_body : Request :=
  mkRequest "POST" "/api/2/host/h1/ready/failed"
            (<[ "status" := "failed" ]> {[ "tag" := "h1" ]}) ∅
            "boot err" (Some "unexpected EOF") None None None.

(** The fleet with the host store refusing the move to unprovisioned. *)
Definition world_no_unprovision : World :=
  mkWorld (hosts world0) (tasks world0) (events world0) (test_logs world0)
          (grip world0) (mail world0) (now world0) (fresh_id world0)
          (providers world0)
          (mkFaults None None None None None None (Some "write conflict") None
                    None).

(** The fleet with the event store down. *)
Definition world_no_events : World :=
  mkWorld (hosts world0) (tasks world0) (events world0) (test_logs world0)
          (grip world0) (mail world0) (now world0) (fresh_id world0)
          (providers world0)
          (mkFaults None None None None None (Some "no reachable servers") None
                    None None).

(** A decoder that rejects every body. *)
Definition decode_none (_ : string) : model.TestLog + error :=
  inr "unexpected end of JSON input".


(** The fleet with the test-log store refusing inserts. *)
Definition world_no_test_logs : World :=
  mkWorld (hosts world0) (tasks world0) (events world0) (test_logs world0)
          (grip world0) (mail world0) (now world0) (fresh_id world0)
          (providers world0)
          (mkFaults None None None None (Some "disk full") None None None None).

(** The callback of a host no record exists for. *)
Definition req_ready_ghost : Request :=
  with_Vars (with_URL request0 "/api/2/host/ghost/ready/success")
            (<[ "status" := "success" ]> {[ "tag" := "ghost" ]}).

(** The fleet with the task lookup failing. *)
Definition world_no_task_lookup : World :=
  mkWorld (hosts world0) (tasks world0) (events world0) (test_logs world0)
          (grip world0) (mail world0) (now world0) (fresh_id world0)
          (providers world0)
          (mkFaults (Some "no reachable servers") None None None None None None
                    None None).

(** ** Basic facts *)

Lemma LoggedError_status r w code err :
  status_of (snd (LoggedError r w code err)) = Some code.
Proof. unfold LoggedError. by destruct (HasPrefix _ _). Qed.

Lemma LoggedError_world r w code err :
  fst (LoggedError r w code err)
  = grip_log Error (Method r ++ " " ++ URL r ++ " " ++ err) w.
Proof. unfold LoggedError. by destruct (HasPrefix _ _). Qed.

Lemma test_logs_grip_log lvl msg w : test_logs (grip_log lvl msg w) = test_logs w.
Proof. reflexivity. Qed.

Lemma checkHost_unfold next r w :
  checkHost next r w =
  if String.eqb (requestHostId r) "" then
    next r (grip_log Warning
              ("Request " ++ URL r ++ " is missing host information") w)
  else checkHost_resolved next (requestHostId r) r w.
Proof.
  unfold checkHost, requestHostId.
  destruct (String.eqb (index (Vars r) "hostId") "") eqn:Hv; [done|].
  by rewrite Hv.
Qed.

Lemma eqb_false_of_neq (a b : string) : a <> b -> String.eqb a b = false.
Proof. intros H. by apply String.eqb_neq. Qed.

Example downstream_runs_without_secret :
  snd (checkHost downstream req_h1_no_secret world0)
  = WriteJSON http.StatusOK (JSONString "downstream ran").
Proof. vm_compute. reflexivity. Qed.

(** ** The authentication gate: properties *)

(** A supplied secret that is present and wrong stops the request. *)
Lemma checkHost_resolved_wrong_secret next hostId r w h :
  host_FindOne w hostId = (Some h, None) ->
  suppliedHostSecret r <> "" ->
  suppliedHostSecret r <> host.Secret h ->
  checkHost_resolved next hostId r w
  = LoggedError r w http.StatusConflict
      ("Invalid host secret for host " ++ host.Id h).
Proof.
  intros Hfind Hne Hdiff. unfold checkHost_resolved.
  rewrite Hfind. fold (suppliedHostSecret r).
  by rewrite !eqb_false_of_neq.
Qed.

(** C1, as the code has it: once the host is resolved, a host secret that is
    supplied (non-empty) and differs from the stored one makes the gate
    answer 409 Conflict; the answer is the same for every downstream
    handler, which therefore does not run, and the store is left as it was. *)
Theorem checkHost_supplied_secret_mismatch next r w h :
  requestHostId r <> "" ->
  host_FindOne w (requestHostId r) = (Some h, None) ->
  suppliedHostSecret r <> "" ->
  suppliedHostSecret r <> host.Secret h ->
  checkHost next r w
  = LoggedError r w http.StatusConflict
      ("Invalid host secret for host " ++ host.Id h)
  /\ status_of (snd (checkHost next r w)) = Some http.StatusConflict
  /\ hosts (fst (checkHost next r w)) = hosts w.
Proof.
  intros Hid Hfind Hne Hdiff.
  assert (Heq : checkHost next r w
                = LoggedError r w http.StatusConflict
                    ("Invalid host secret for host " ++ host.Id h)).
  { rewrite checkHost_unfold, (eqb_false_of_neq _ _ Hid).
    by apply checkHost_resolved_wrong_secret. }
  rewrite Heq, LoggedError_status, LoggedError_world. done.
Qed.

Lemma checkHost_supplied_secret_mismatch_witness :
  requestHostId req_h1_wrong_secret <> ""
  /\ host_FindOne world0 (requestHostId req_h1_wrong_secret) = (Some h1, None)
  /\ suppliedHostSecret req_h1_wrong_secret <> ""
  /\ suppliedHostSecret req_h1_wrong_secret <> host.Secret h1
  /\ status_of (snd (checkHost downstream req_h1_wrong_secret world0))
     = Some http.StatusConflict.
Proof.
  assert (H1 : requestHostId req_h1_wrong_secret <> "") by (vm_compute; discriminate).
  assert (H2 : host_FindOne world0 (requestHostId req_h1_wrong_secret)
               = (Some h1, None)) by (vm_compute; reflexivity).
  assert (H3 : suppliedHostSecret req_h1_wrong_secret <> "")
    by (vm_compute; discriminate).
  assert (H4 : suppliedHostSecret req_h1_wrong_secret <> host.Secret h1)
    by (vm_compute; discriminate).
  refine (conj H1 (conj H2 (conj H3 (conj H4 _)))).
  exact (proj1 (proj2 (checkHost_supplied_secret_mismatch
                         downstream req_h1_wrong_secret world0 h1 H1 H2 H3 H4))).
Defined.

(** C1 fails as stated: host [h1] has the non-empty secret "s3cret", the
    request names [h1] and attaches no host secret, so the supplied secret
    (empty) differs from the stored one; yet the gate does not answer
    Conflict: the downstream handler runs and answers 200. *)
Lemma checkHost_empty_secret_is_accepted :
  host_FindOne world0 (requestHostId req_h1_no_secret) = (Some h1, None)
  /\ host.Secret h1 <> ""
  /\ suppliedHostSecret req_h1_no_secret = ""
  /\ suppliedHostSecret req_h1_no_secret <> host.Secret h1
  /\ snd (checkHost downstream req_h1_no_secret world0)
     = WriteJSON http.StatusOK (JSONString "downstream ran")
  /\ status_of (snd (checkHost downstream req_h1_no_secret world0))
     <> Some http.StatusConflict.
Proof.
  split; [vm_compute; reflexivity|].
  split; [vm_compute; discriminate|].
  split; [vm_compute; reflexivity|].
  split; [vm_compute; discriminate|].
  split; [vm_compute; reflexivity|vm_compute; discriminate].
Qed.

(** A resolved host whose running task is not the bound task stops the
    request, whatever the secret check said. *)
Lemma checkHost_resolved_task_mismatch next hostId r w h t :
  host_FindOne w hostId = (Some h, None) ->
  ctxTask r = Some t ->
  host.RunningTask h <> task.Id t ->
  checkHost_resolved next hostId r w
  = LoggedError r w http.StatusConflict
      (if negb (String.eqb (suppliedHostSecret r) "")
          && negb (String.eqb (suppliedHostSecret r) (host.Secret h))
       then "Invalid host secret for host " ++ host.Id h
       else "Host " ++ host.Id h ++ " should be running "
            ++ host.RunningTask h ++ ", not " ++ task.Id t).
Proof.
  intros Hfind Hctx Hdiff. unfold checkHost_resolved.
  rewrite Hfind. fold (suppliedHostSecret r).
  destruct (negb (String.eqb (suppliedHostSecret r) "")
            && negb (String.eqb (suppliedHostSecret r) (host.Secret h)));
    [done|].
  rewrite Hctx. cbn [from_option]. by rewrite (eqb_false_of_neq _ _ Hdiff).
Qed.

(** A resolved host that passes both checks reaches the downstream handler,
    bound into the request, after its last-communication time was stamped. *)
Lemma checkHost_resolved_proceeds next hostId r w h t :
  host_FindOne w hostId = (Some h, None) ->
  suppliedHostSecret r = "" \/ suppliedHostSecret r = host.Secret h ->
  ctxTask r = Some t ->
  host.RunningTask h = task.Id t ->
  UpdateLastCommunicated_err (faults w) = None ->
  hosts w !! host.Id h = Some h ->
  checkHost_resolved next hostId r w
  = next (set_ctxHost r (host.with_LastCommunicationTime h (now w)))
         (with_hosts w (<[host.Id h := host.with_LastCommunicationTime h (now w)]>
                          (hosts w))).
Proof.
  intros Hfind Hsec Hctx Hrun Hup Hin. unfold checkHost_resolved.
  rewrite Hfind. fold (suppliedHostSecret r).
  assert (Hs : negb (String.eqb (suppliedHostSecret r) "")
               && negb (String.eqb (suppliedHostSecret r) (host.Secret h))
               = false).
  { destruct Hsec as [-> | ->]; [done|].
    rewrite String.eqb_refl. by rewrite andb_false_r. }
  rewrite Hs, Hctx, Hrun, String.eqb_refl. cbn [negb].
  unfold UpdateLastCommunicated, host_UpdateOne. by rewrite Hup, Hin.
Qed.

(** C2: with task [t] bound into the request and host [h] resolved, a host
    whose running task is not [t] never reaches the downstream handler: the
    gate answers 409 Conflict, the same for every downstream handler, and
    writes nothing to the store; the record of [h], its last-communication
    time included, is the one that was there. So the request proceeds only
    if the host's running task is [t]. *)
Theorem checkHost_host_task_consistency next r w h t :
  ctxTask r = Some t ->
  requestHostId r <> "" ->
  host_FindOne w (requestHostId r) = (Some h, None) ->
  host.RunningTask h <> task.Id t ->
  (exists msg, forall next', checkHost next' r w
                             = LoggedError r w http.StatusConflict msg)
  /\ status_of (snd (checkHost next r w)) = Some http.StatusConflict
  /\ hosts (fst (checkHost next r w)) = hosts w
  /\ tasks (fst (checkHost next r w)) = tasks w
  /\ events (fst (checkHost next r w)) = events w
  /\ hosts (fst (checkHost next r w)) !! requestHostId r = Some h.
Proof.
  intros Hctx Hid Hfind Hdiff.
  pose proof (fun n => checkHost_resolved_task_mismatch
                         n (requestHostId r) r w h t Hfind Hctx Hdiff) as Hres.
  assert (Heq : forall n, checkHost n r w = checkHost_resolved n (requestHostId r) r w).
  { intros n. by rewrite checkHost_unfold, (eqb_false_of_neq _ _ Hid). }
  split.
  - eexists. intros n. rewrite Heq. apply Hres.
  - rewrite Heq, Hres, LoggedError_status, LoggedError_world. cbn.
    repeat split.
    unfold host_FindOne in Hfind.
    destruct (host_FindOne_err (faults w)); [discriminate|].
    by inversion Hfind.
Qed.

Lemma checkHost_host_task_consistency_witness :
  ctxTask req_h1_t2 = Some t2
  /\ requestHostId req_h1_t2 <> ""
  /\ host_FindOne world0 (requestHostId req_h1_t2) = (Some h1, None)
  /\ host.RunningTask h1 <> task.Id t2
  /\ status_of (snd (checkHost downstream req_h1_t2 world0))
     = Some http.StatusConflict.
Proof.
  assert (H1 : ctxTask req_h1_t2 = Some t2) by reflexivity.
  assert (H2 : requestHostId req_h1_t2 <> "") by (vm_compute; discriminate).
  assert (H3 : host_FindOne world0 (requestHostId req_h1_t2) = (Some h1, None))
    by (vm_compute; reflexivity).
  assert (H4 : host.RunningTask h1 <> task.Id t2) by (vm_compute; discriminate).
  refine (conj H1 (conj H2 (conj H3 (conj H4 _)))).
  exact (proj1 (proj2 (checkHost_host_task_consistency
                         downstream req_h1_t2 world0 h1 t2 H1 H2 H3 H4))).
Defined.

(** C9: with no [hostId] path variable and no host header, [checkHost] hands
    the request, unchanged, straight to the downstream handler; the world it
    passes on differs from the one it got by one warning line only. No host
    is looked up, no secret or host/task check runs, no timestamp is
    written and no host is bound into the request. *)
Theorem checkHost_without_host_information next r w :
  index (Vars r) "hostId" = "" ->
  index (Header r) evergreen.HostHeader = "" ->
  checkHost next r w
  = next r (grip_log Warning
              ("Request " ++ URL r ++ " is missing host information") w)
  /\ hosts (grip_log Warning
              ("Request " ++ URL r ++ " is missing host information") w)
     = hosts w.
Proof.
  intros Hv Hh. unfold checkHost. by rewrite Hv, Hh.
Qed.

Lemma checkHost_without_host_information_witness :
  index (Vars request0) "hostId" = ""
  /\ index (Header request0) evergreen.HostHeader = ""
  /\ checkHost downstream request0 world0
     = downstream request0
         (grip_log Warning
            ("Request " ++ URL request0 ++ " is missing host information") world0).
Proof.
  assert (H1 : index (Vars request0) "hostId" = "") by reflexivity.
  assert (H2 : index (Header request0) evergreen.HostHeader = "") by reflexivity.
  refine (conj H1 (conj H2 _)).
  exact (proj1 (checkHost_without_host_information downstream request0 world0 H1 H2)).
Defined.

(** C4, as the code has it: when the asserted id is not empty and no record
    exists for it, the gate answers without running the downstream handler;
    [checkTask] answers 404 Not Found for a task (the lookup itself having
    succeeded), [checkHost] answers 400 Bad Request for a host. *)
Theorem gate_lookup_without_record checkSecret next rt wt rh wh :
  index (Vars rt) "taskId" <> "" ->
  task_FindOne wt (index (Vars rt) "taskId") = (None, None) ->
  requestHostId rh <> "" ->
  fst (host_FindOne wh (requestHostId rh)) = None ->
  (checkTask checkSecret next rt wt
   = LoggedError rt wt http.StatusNotFound "task not found"
   /\ status_of (snd (checkTask checkSecret next rt wt)) = Some http.StatusNotFound)
  /\ (checkHost next rh wh
      = LoggedError rh wh http.StatusBadRequest
          ("Host " ++ requestHostId rh ++ " not found")
      /\ status_of (snd (checkHost next rh wh)) = Some http.StatusBadRequest).
Proof.
  intros Ht Hft Hh Hfh.
  assert (E1 : checkTask checkSecret next rt wt
               = LoggedError rt wt http.StatusNotFound "task not found").
  { unfold checkTask. by rewrite (eqb_false_of_neq _ _ Ht), Hft. }
  assert (E2 : checkHost next rh wh
               = LoggedError rh wh http.StatusBadRequest
                   ("Host " ++ requestHostId rh ++ " not found")).
  { rewrite checkHost_unfold, (eqb_false_of_neq _ _ Hh).
    unfold checkHost_resolved.
    destruct (host_FindOne wh (requestHostId rh)) as [oh oe].
    cbn in Hfh. by subst oh. }
  rewrite E1, E2, !LoggedError_status. done.
Qed.

Lemma gate_lookup_without_record_witness :
  index (Vars req_no_task) "taskId" <> ""
  /\ task_FindOne world0 (index (Vars req_no_task) "taskId") = (None, None)
  /\ requestHostId req_ghost <> ""
  /\ fst (host_FindOne world0 (requestHostId req_ghost)) = None
  /\ status_of (snd (checkTask true downstream req_no_task world0))
     = Some http.StatusNotFound
  /\ status_of (snd (checkHost downstream req_ghost world0))
     = Some http.StatusBadRequest.
Proof.
  assert (H1 : index (Vars req_no_task) "taskId" <> "") by (vm_compute; discriminate).
  assert (H2 : task_FindOne world0 (index (Vars req_no_task) "taskId") = (None, None))
    by (vm_compute; reflexivity).
  assert (H3 : requestHostId req_ghost <> "") by (vm_compute; discriminate).
  assert (H4 : fst (host_FindOne world0 (requestHostId req_ghost)) = None)
    by (vm_compute; reflexivity).
  pose proof (gate_lookup_without_record true downstream req_no_task world0
                req_ghost world0 H1 H2 H3 H4) as [[_ Ha] [_ Hb]].
  exact (conj H1 (conj H2 (conj H3 (conj H4 (conj Ha Hb))))).
Defined.

(** C4 fails as stated for hosts: no Host record exists for the id "ghost",
    and the gate answers 400 Bad Request, not 404 Not Found. *)
Lemma checkHost_unknown_host_is_bad_request :
  host_FindOne world0 (requestHostId req_ghost) = (None, None)
  /\ requestHostId req_ghost = "ghost"
  /\ status_of (snd (checkHost downstream req_ghost world0))
     = Some http.StatusBadRequest
  /\ status_of (snd (checkHost downstream req_ghost world0))
     <> Some http.StatusNotFound.
Proof.
  split; [vm_compute; reflexivity|].
  split; [vm_compute; reflexivity|].
  split; [vm_compute; reflexivity|vm_compute; discriminate].
Qed.

(** ** Test-log ingestion: properties *)

Lemma fill_length n c rest :
  String.length (fill n c rest) = (n + String.length rest)%nat.
Proof. induction n as [|n IH]; cbn [fill String.length Nat.add]; congruence. Qed.

Lemma append_length (s1 s2 : string) :
  String.length (s1 ++ s2) = (String.length s1 + String.length s2)%nat.
Proof.
  induction s1 as [|a s1 IH]; [reflexivity|].
  change (S (String.length (s1 ++ s2))
          = S (String.length s1 + String.length s2)%nat).
  by rewrite IH.
Qed.

Lemma test_log_json_length n : String.length (test_log_json n) = (14 + n)%nat.
Proof.
  unfold test_log_json. rewrite append_length, fill_length.
  change (11 + (n + 3) = 14 + n)%nat. lia.
Qed.

Lemma maxTestLogSize_pos : (0 < maxTestLogSize)%Z.
Proof. reflexivity. Qed.

Lemma cap_sized_body_length :
  Z.of_nat (String.length cap_sized_body) = maxTestLogSize.
Proof.
  unfold cap_sized_body. rewrite test_log_json_length.
  assert (H : (14 <= maxTestLogSize)%Z) by (intros Hc; discriminate Hc).
  rewrite Nat2Z.inj_add, Z2Nat.id by lia. lia.
Qed.

(** A body that fills the limited reader leaves it with [N = 0]. *)
Lemma ReadAll_limited_exhausted body berr :
  (maxTestLogSize <= Z.of_nat (String.length body))%Z ->
  io.N (snd (ReadAll_limited (io.mk body berr maxTestLogSize))) = 0%Z
  /\ snd (fst (ReadAll_limited (io.mk body berr maxTestLogSize))) = None.
Proof.
  intros Hlen. unfold ReadAll_limited. cbv beta iota zeta delta [io.N io.data io.err].
  assert (H0 : (maxTestLogSize <=? 0)%Z = false) by reflexivity.
  rewrite H0.
  apply Z.leb_le in Hlen. rewrite Hlen. split; reflexivity.
Qed.

(** A shorter body is handed on whole and leaves [N] positive. *)
Lemma ReadAll_limited_short body berr :
  (Z.of_nat (String.length body) < maxTestLogSize)%Z ->
  ReadAll_limited (io.mk body berr maxTestLogSize)
  = (body, berr,
     io.mk "" berr (maxTestLogSize - Z.of_nat (String.length body))%Z).
Proof.
  intros Hlen. unfold ReadAll_limited. cbv beta iota zeta delta [io.N io.data io.err].
  assert (H0 : (maxTestLogSize <=? 0)%Z = false) by reflexivity.
  rewrite H0.
  apply Z.leb_gt in Hlen. by rewrite Hlen.
Qed.

Section TestLogProperties.

Variable Unmarshal_TestLog : string -> model.TestLog + error.

(** Every body of [maxTestLogSize] bytes or more is turned away. *)
Lemma AttachTestLog_full_reader r w t :
  GetTask r = Some t ->
  (maxTestLogSize <= Z.of_nat (String.length (Body r)))%Z ->
  AttachTestLog Unmarshal_TestLog r w
  = LoggedError r w http.StatusBadRequest
      ("test log size exceeds " ++ pretty maxTestLogSize ++ " bytes").
Proof.
  intros Ht Hlen. unfold AttachTestLog, MustHaveTask. rewrite Ht.
  unfold ReadJSONInto_TestLog.
  destruct (ReadAll_limited_exhausted (Body r) (BodyErr r) Hlen) as [HN Herr].
  destruct (ReadAll_limited (io.mk (Body r) (BodyErr r) maxTestLogSize))
    as [[bytes rerr] lr1].
  cbn [fst snd] in HN, Herr. subst rerr.
  by rewrite HN.
Qed.


End TestLogProperties.

(** A small well-formed body is stored under the fresh id and bound to the
    task of the request. *)
Example AttachTestLog_small_body :
  AttachTestLog decode_any (req_test_log (test_log_json 3)) world0
  = (with_test_logs world0 [model.mkTestLog "log-1" "unit-tests" "t1" 0%Z []],
     WriteJSON http.StatusOK (JSONLogReply "log-1")).
Proof. vm_compute. reflexivity. Qed.

Lemma pretty_maxTestLogSize : pretty maxTestLogSize = "16777216".
Proof. vm_compute. reflexivity. Qed.

(** C3, at the size cap: a request bound to task [t1] whose body has
    exactly [maxTestLogSize] (16777216) bytes, a well-formed JSON test log,
    is answered 400 with the text
    "test log size exceeds 16777216 bytes", whatever the decoder makes of
    the bytes, and no log is persisted. *)
Theorem AttachTestLog_rejects_cap_sized_body
        (Unmarshal_TestLog : string -> model.TestLog + error) :
  Z.of_nat (String.length (Body (req_test_log cap_sized_body))) = maxTestLogSize
  /\ AttachTestLog Unmarshal_TestLog (req_test_log cap_sized_body) world0
     = LoggedError (req_test_log cap_sized_body) world0 http.StatusBadRequest
         "test log size exceeds 16777216 bytes"
  /\ status_of (snd (AttachTestLog Unmarshal_TestLog
                       (req_test_log cap_sized_body) world0))
     = Some http.StatusBadRequest
  /\ test_logs (fst (AttachTestLog Unmarshal_TestLog
                       (req_test_log cap_sized_body) world0))
     = test_logs world0.
Proof.
  assert (Hb : Body (req_test_log cap_sized_body) = cap_sized_body) by reflexivity.
  assert (Hlen : Z.of_nat (String.length (Body (req_test_log cap_sized_body)))
                 = maxTestLogSize)
    by (rewrite Hb; apply cap_sized_body_length).
  assert (Heq := AttachTestLog_full_reader Unmarshal_TestLog
                   (req_test_log cap_sized_body) world0 t1 eq_refl
                   ltac:(rewrite Hlen; lia)).
  rewrite pretty_maxTestLogSize in Heq.
  split; [exact Hlen|]. split; [exact Heq|].
  rewrite Heq, LoggedError_status, LoggedError_world.
  split; [reflexivity|]. apply test_logs_grip_log.
Qed.

(** ** The host event log: properties *)

Lemma LogHostEvent_stored hostId eventType data w :
  LogEvent_err (faults w) = None ->
  LogHostEvent hostId eventType data w
  = with_events w
      (events w
       ++ [event.mkEvent (now w) hostId eventType
             (event.with_ResourceType data event.ResourceTypeHost)]).
Proof. intros H. unfold LogHostEvent, LogEvent. by rewrite H. Qed.

Lemma LogHostEvent_dropped hostId eventType data w e :
  LogEvent_err (faults w) = Some e ->
  LogHostEvent hostId eventType data w
  = grip_log Error ("Error logging host event: " ++ e) w.
Proof. intros H. unfold LogHostEvent, LogEvent. by rewrite H. Qed.

Lemma LogHostEvent_keeps_valid hostId eventType data w :
  all_valid w -> all_valid (LogHostEvent hostId eventType data w).
Proof.
  intros Hv. unfold all_valid in *.
  destruct (LogEvent_err (faults w)) as [e|] eqn:He.
  - by rewrite (LogHostEvent_dropped _ _ _ _ _ He).
  - rewrite (LogHostEvent_stored _ _ _ _ He). cbn [events with_events].
    apply Forall_app. split; [done|]. by repeat constructor.
Qed.

Lemma run_call_keeps_valid c w : all_valid w -> all_valid (run_call c w).
Proof.
  intros Hv.
  destruct c; cbn [run_call];
    try (by apply LogHostEvent_keeps_valid).
  unfold LogHostStatusChanged.
  destruct (String.eqb oldStatus newStatus); [done|].
  by apply LogHostEvent_keeps_valid.
Qed.

(** C10: [LogHostEvent] overwrites the resource type of the data it is
    given with "HOST", so the data it logs is valid whatever was passed in;
    when the store takes the write, the log grows by exactly the event that
    carries the given host id as resource id, the current time as timestamp,
    the given event type and that data. Every helper of the package logs
    through [LogHostEvent], so a log of valid host events stays one under
    every call. *)
Theorem LogHostEvent_forces_host_resource_type hostId eventType data w :
  LogEvent_err (faults w) = None ->
  let logged := event.with_ResourceType data event.ResourceTypeHost in
  events (LogHostEvent hostId eventType data w)
  = (events w ++ [event.mkEvent (now w) hostId eventType logged])%list
  /\ event.ResourceType logged = "HOST"
  /\ event.IsValid logged = true
  /\ (forall c, all_valid w -> all_valid (run_call c w)).
Proof.
  intros H logged. rewrite (LogHostEvent_stored _ _ _ _ H).
  repeat split. intros c. apply run_call_keeps_valid.
Qed.

Lemma LogHostEvent_forces_host_resource_type_witness :
  LogEvent_err (faults world0) = None
  /\ events (LogHostEvent "h1" event.EventHostCreated
               (event.mkData "TASK" "" "" "" "" "" "" "" "" false 0%Z) world0)
     = [event.mkEvent 1000%Z "h1" "HOST_CREATED"
          (event.mkData "HOST" "" "" "" "" "" "" "" "" false 0%Z)].
Proof.
  assert (H : LogEvent_err (faults world0) = None) by reflexivity.
  refine (conj H _).
  exact (proj1 (LogHostEvent_forces_host_resource_type
                  "h1" event.EventHostCreated
                  (event.mkData "TASK" "" "" "" "" "" "" "" "" false 0%Z)
                  world0 H)).
Defined.

(** C7: [LogHostStatusChanged] leaves the world as it is when the old and
    the new status are equal; when they differ and the store takes the
    write, the log grows by exactly one event, of type HOST_STATUS_CHANGED,
    for the given host, whose data holds the old and the new status. *)
Theorem LogHostStatusChanged_writes_iff_changed hostId oldStatus newStatus w :
  (oldStatus = newStatus ->
   LogHostStatusChanged hostId oldStatus newStatus w = w)
  /\ (oldStatus <> newStatus ->
      LogEvent_err (faults w) = None ->
      exists e,
        events (LogHostStatusChanged hostId oldStatus newStatus w)
        = (events w ++ [e])%list
        /\ event.EventType e = event.EventHostStatusChanged
        /\ event.ResourceId e = hostId
        /\ event.OldStatus (event.Data e) = oldStatus
        /\ event.NewStatus (event.Data e) = newStatus
        /\ event.IsValid (event.Data e) = true).
Proof.
  unfold LogHostStatusChanged. split.
  - intros ->. by rewrite String.eqb_refl.
  - intros Hne H. rewrite (eqb_false_of_neq _ _ Hne).
    rewrite (LogHostEvent_stored _ _ _ _ H). eexists. split; [reflexivity|].
    repeat split.
Qed.

Lemma LogHostStatusChanged_writes_iff_changed_witness :
  LogEvent_err (faults world0) = None
  /\ "running" <> "terminated"
  /\ LogHostStatusChanged "h1" "running" "running" world0 = world0
  /\ exists e,
       events (LogHostStatusChanged "h1" "running" "terminated" world0)
       = (events world0 ++ [e])%list
       /\ event.EventType e = event.EventHostStatusChanged
       /\ event.ResourceId e = "h1"
       /\ event.OldStatus (event.Data e) = "running"
       /\ event.NewStatus (event.Data e) = "terminated"
       /\ event.IsValid (event.Data e) = true.
Proof.
  assert (H : LogEvent_err (faults world0) = None) by reflexivity.
  assert (Hne : "running" <> "terminated") by discriminate.
  refine (conj H (conj Hne (conj _ _))).
  - exact (proj1 (LogHostStatusChanged_writes_iff_changed
                    "h1" "running" "running" world0) eq_refl).
  - exact (proj2 (LogHostStatusChanged_writes_iff_changed
                    "h1" "running" "terminated" world0) Hne H).
Defined.

(** ** Intent hosts: properties *)

(** C6: [NewIntent] returns a host in status [HostUninitialized] whose
    creation time is the time of the call; its expiration time is the
    creation time plus the expiration duration when the options carry one,
    and the zero time when they carry none. *)
Theorem NewIntent_status_and_expiration
        (ZeroTime creationTime : Time) (d : distro.Distro)
        (instanceName provider : string) (options : cloud.HostOptions) :
  let h := NewIntent ZeroTime creationTime d instanceName provider options in
  host.Status h = evergreen.HostUninitialized
  /\ host.CreationTime h = creationTime
  /\ host.Id h = instanceName
  /\ host.ExpirationTime h
     = match cloud.ExpirationDuration options with
       | Some dur => (host.CreationTime h + dur)%Z
       | None => zeroValueTime
       end.
Proof.
  unfold NewIntent.
  destruct options as [po [dur|] un ud uh]; destruct po;
    cbn [cloud.ExpirationDuration cloud.ProvisionOptions cloud.UserData];
    destruct (negb (String.eqb ud "")); repeat split.
Qed.

(** Five hours, in nanoseconds, after a creation at instant 7. *)
Example NewIntent_five_hours :
  host.ExpirationTime
    (NewIntent 0%Z 7%Z d0 "evg-1" "ec2"
       (cloud.mkHostOptions None (Some (5 * 3600 * 1000000000)%Z) "u" "" false))
  = (7 + 5 * 3600 * 1000000000)%Z.
Proof. reflexivity. Qed.

(** ** Heartbeat: properties *)

Lemma UpdateHeartbeat_stamps t w w' :
  UpdateHeartbeat t w = (w', None) ->
  task.LastHeartbeat <$> (tasks w' !! task.Id t) = Some (now w)
  /\ hosts w' = hosts w /\ events w' = events w.
Proof.
  unfold UpdateHeartbeat.
  destruct (UpdateHeartbeat_err (faults w)); [discriminate|].
  destruct (tasks w !! task.Id t) as [t'|]; [|discriminate].
  intros [= <-]. cbn [tasks with_tasks hosts events].
  by rewrite lookup_insert_eq.
Qed.

Lemma UpdateHeartbeat_failed t w w' e :
  UpdateHeartbeat t w = (w', Some e) -> w' = w.
Proof.
  unfold UpdateHeartbeat.
  destruct (UpdateHeartbeat_err (faults w)); [by intros [= <- _]|].
  destruct (tasks w !! task.Id t); [discriminate|]. by intros [= <- _].
Qed.

(** C8: for the task [t] bound to the request, [Heartbeat] answers 200 with
    a response whose [Abort] is [t]'s [Aborted] flag, whether or not the
    heartbeat update succeeds; when the update succeeds, the stored task
    carries the current time as its heartbeat time, and when it fails the
    world is left as it was. *)
Theorem Heartbeat_reports_abort r w t :
  GetTask r = Some t ->
  snd (Heartbeat r w)
  = WriteJSON http.StatusOK (JSONHeartbeat (apimodels.mk (task.Aborted t)))
  /\ status_of (snd (Heartbeat r w)) = Some http.StatusOK
  /\ (forall hb, snd (Heartbeat r w) = WriteJSON http.StatusOK (JSONHeartbeat hb) ->
                 (apimodels.Abort hb = true <-> task.Aborted t = true))
  /\ fst (Heartbeat r w) = fst (UpdateHeartbeat t w)
  /\ (snd (UpdateHeartbeat t w) = None ->
      task.LastHeartbeat <$> (tasks (fst (Heartbeat r w)) !! task.Id t)
      = Some (now w))
  /\ (snd (UpdateHeartbeat t w) <> None -> fst (Heartbeat r w) = w).
Proof.
  intros Ht. unfold Heartbeat, MustHaveTask. rewrite Ht.
  destruct (UpdateHeartbeat t w) as [w1 oe] eqn:Hu. cbn [fst snd].
  assert (Hresp : (if task.Aborted t then apimodels.mk true else apimodels.mk false)
                  = apimodels.mk (task.Aborted t)) by (by destruct (task.Aborted t)).
  rewrite Hresp. split; [done|]. split; [done|]. split.
  { intros hb [= <-]. done. }
  split; [done|]. split.
  - intros ->. by destruct (UpdateHeartbeat_stamps _ _ _ Hu).
  - destruct oe as [e|]; [|done]. intros _. by apply (UpdateHeartbeat_failed t w w1 e).
Qed.

Lemma Heartbeat_reports_abort_witness :
  GetTask req_heartbeat_t1 = Some t1
  /\ snd (Heartbeat req_heartbeat_t1 world0)
     = WriteJSON http.StatusOK (JSONHeartbeat (apimodels.mk true))
  /\ task.LastHeartbeat <$> (tasks (fst (Heartbeat req_heartbeat_t1 world0)) !! "t1")
     = Some 1000%Z.
Proof.
  assert (H : GetTask req_heartbeat_t1 = Some t1) by reflexivity.
  pose proof (Heartbeat_reports_abort req_heartbeat_t1 world0 t1 H)
    as (Ha & _ & _ & _ & Hb & _).
  refine (conj H (conj Ha _)).
  apply Hb. vm_compute. reflexivity.
Defined.

(** The update of an unknown task fails, and the answer is still 200. *)
Example Heartbeat_update_failure_is_swallowed :
  snd (UpdateHeartbeat t2 world0) = Some "not found"
  /\ Heartbeat (set_ctxTask request0 t2) world0
     = (world0, WriteJSON http.StatusOK (JSONHeartbeat (apimodels.mk false))).
Proof. split; vm_compute; reflexivity. Qed.

(** ** The provisioning callback: properties *)

Lemma length_eqb_0_of_nonempty (s : string) :
  s <> "" -> (String.length s =? 0)%nat = false.
Proof. by destruct s. Qed.

(** The notification step touches the mail record and the logger only. *)
Lemma notify_or_log_frame subject message w :
  faults (notify_or_log subject message w) = faults w
  /\ hosts (notify_or_log subject message w) = hosts w
  /\ events (notify_or_log subject message w) = events w
  /\ now (notify_or_log subject message w) = now w
  /\ mail (notify_or_log subject message w)
     = (mail w ++ [(subject, message)])%list.
Proof.
  unfold notify_or_log, NotifyAdmins.
  destruct (NotifyAdmins_err (faults w)); repeat split.
Qed.



(** ** The task gate: further properties *)

(** X1: with secret checking on, a task secret that differs from the stored
    one (an absent one included) is answered 409 with the plain text "wrong
    secret!", whatever the client accepts; the downstream handler does not
    run and no store is written. *)
Theorem checkTask_wrong_secret next r w t :
  index (Vars r) "taskId" <> "" ->
  task_FindOne w (index (Vars r) "taskId") = (Some t, None) ->
  index (Header r) evergreen.TaskSecretHeader <> task.Secret t ->
  snd (checkTask true next r w) = http_Error "wrong secret!" http.StatusConflict
  /\ same_stores w (fst (checkTask true next r w)).
Proof.
  intros Hid Hfind Hsec. unfold checkTask.
  rewrite (eqb_false_of_neq _ _ Hid), Hfind, (eqb_false_of_neq _ _ Hsec).
  cbn [andb negb fst snd]. split; [reflexivity|]. by repeat split.
Qed.

Lemma checkTask_wrong_secret_witness :
  index (Vars req_fetch_t1_no_secret) "taskId" <> ""
  /\ task_FindOne world0 (index (Vars req_fetch_t1_no_secret) "taskId")
     = (Some t1, None)
  /\ index (Header req_fetch_t1_no_secret) evergreen.TaskSecretHeader
     <> task.Secret t1
  /\ snd (checkTask true FetchTask req_fetch_t1_no_secret world0)
     = http_Error "wrong secret!" http.StatusConflict.
Proof.
  assert (H1 : index (Vars req_fetch_t1_no_secret) "taskId" <> "")
    by (vm_compute; discriminate).
  assert (H2 : task_FindOne world0 (index (Vars req_fetch_t1_no_secret) "taskId")
               = (Some t1, None)) by (vm_compute; reflexivity).
  assert (H3 : index (Header req_fetch_t1_no_secret) evergreen.TaskSecretHeader
               <> task.Secret t1) by (vm_compute; discriminate).
  refine (conj H1 (conj H2 (conj H3 _))).
  exact (proj1 (checkTask_wrong_secret FetchTask req_fetch_t1_no_secret
                  world0 t1 H1 H2 H3)).
Defined.

(** X2: when the task exists and its secret matches, or is not checked at
    all, [checkTask] runs the downstream handler on the untouched world and
    on the request with the stored task bound, for the handler and for the
    plugins; path variables, headers, body and any bound host are as they
    were. *)
Theorem checkTask_binds_task checkSecret next r w t :
  index (Vars r) "taskId" <> "" ->
  task_FindOne w (index (Vars r) "taskId") = (Some t, None) ->
  (checkSecret = true ->
   index (Header r) evergreen.TaskSecretHeader = task.Secret t) ->
  exists r',
    checkTask checkSecret next r w = next r' w
    /\ GetTask r' = Some t /\ pluginTask r' = Some t
    /\ GetHost r' = GetHost r
    /\ Vars r' = Vars r /\ Header r' = Header r /\ Body r' = Body r.
Proof.
  intros Hid Hfind Hsec. unfold checkTask.
  rewrite (eqb_false_of_neq _ _ Hid), Hfind.
  assert (Hc : checkSecret
               && negb (String.eqb (index (Header r) evergreen.TaskSecretHeader)
                                   (task.Secret t)) = false).
  { destruct checkSecret; [|done].
    rewrite (Hsec eq_refl), String.eqb_refl. done. }
  rewrite Hc. eexists. split; [reflexivity|]. by repeat split.
Qed.

Lemma checkTask_binds_task_witness :
  index (Vars req_fetch_t1_no_secret) "taskId" <> ""
  /\ task_FindOne world0 (index (Vars req_fetch_t1_no_secret) "taskId")
     = (Some t1, None)
  /\ exists r',
       checkTask false downstream req_fetch_t1_no_secret world0
       = downstream r' world0
       /\ GetTask r' = Some t1.
Proof.
  assert (H1 : index (Vars req_fetch_t1_no_secret) "taskId" <> "")
    by (vm_compute; discriminate).
  assert (H2 : task_FindOne world0 (index (Vars req_fetch_t1_no_secret) "taskId")
               = (Some t1, None)) by (vm_compute; reflexivity).
  refine (conj H1 (conj H2 _)).
  destruct (checkTask_binds_task false downstream req_fetch_t1_no_secret
              world0 t1 H1 H2 ltac:(discriminate))
    as (r' & Ha & Hb & _).
  exact (ex_intro _ r' (conj Ha Hb)).
Defined.

(** X3: a request without a task id is answered 400 and a failed task
    lookup 500; in both cases [checkTask] answers through [LoggedError], the
    same for every downstream handler, which therefore does not run. *)
Theorem checkTask_missing_id_or_failed_lookup checkSecret next r w :
  (index (Vars r) "taskId" = "" ->
   checkTask checkSecret next r w
   = LoggedError r w http.StatusBadRequest "missing task id")
  /\ (forall e,
        index (Vars r) "taskId" <> "" ->
        task_FindOne_err (faults w) = Some e ->
        checkTask checkSecret next r w
        = LoggedError r w http.StatusInternalServerError e).
Proof.
  split.
  - intros H. unfold checkTask. by rewrite H.
  - intros e Hid He. unfold checkTask, task_FindOne.
    by rewrite (eqb_false_of_neq _ _ Hid), He.
Qed.

Lemma checkTask_missing_id_or_failed_lookup_witness :
  index (Vars request0) "taskId" = ""
  /\ checkTask true downstream request0 world0
     = LoggedError request0 world0 http.StatusBadRequest "missing task id"
  /\ index (Vars req_fetch_t1) "taskId" <> ""
  /\ task_FindOne_err (faults world_no_task_lookup) = Some "no reachable servers"
  /\ checkTask true downstream req_fetch_t1 world_no_task_lookup
     = LoggedError req_fetch_t1 world_no_task_lookup
         http.StatusInternalServerError "no reachable servers".
Proof.
  assert (H : index (Vars request0) "taskId" = "") by reflexivity.
  assert (H1 : index (Vars req_fetch_t1) "taskId" <> "")
    by (vm_compute; discriminate).
  assert (H2 : task_FindOne_err (faults world_no_task_lookup)
               = Some "no reachable servers") by reflexivity.
  refine (conj H (conj _ (conj H1 (conj H2 _)))).
  - exact (proj1 (checkTask_missing_id_or_failed_lookup true downstream
                    request0 world0) H).
  - exact (proj2 (checkTask_missing_id_or_failed_lookup true downstream
                    req_fetch_t1 world_no_task_lookup) _ H1 H2).
Defined.

(** ** The host gate: further properties *)

(** X4: once the host is resolved and both checks pass, the downstream
    handler runs with the host bound into the request whether or not the
    last-communication time could be written. When the write fails the
    store is left as it was, the host is bound as it was read and one
    warning is logged; when it succeeds the last-communication time of the
    stored record and of the bound host read the current time, and their
    id, secret, running task and status are the ones they had. *)
Theorem checkHost_stamp_is_best_effort next r w h :
  requestHostId r <> "" ->
  host_FindOne w (requestHostId r) = (Some h, None) ->
  suppliedHostSecret r = "" \/ suppliedHostSecret r = host.Secret h ->
  (forall t, ctxTask r = Some t -> host.RunningTask h = task.Id t) ->
  (forall e,
     UpdateLastCommunicated_err (faults w) = Some e ->
     checkHost next r w
     = next (set_ctxHost r h)
            (grip_log Warning
               ("Could not update host last communication time for "
                ++ host.Id h ++ ": " ++ e) w))
  /\ (forall h',
        UpdateLastCommunicated_err (faults w) = None ->
        hosts w !! host.Id h = Some h' ->
        exists bound stored,
          checkHost next r w
          = next (set_ctxHost r bound)
                 (with_hosts w (<[host.Id h := stored]> (hosts w)))
          /\ bound = host.with_LastCommunicationTime h (now w)
          /\ stored = host.with_LastCommunicationTime h' (now w)
          /\ host.LastCommunicationTime bound = now w
          /\ host.LastCommunicationTime stored = now w
          /\ (host.Id bound = host.Id h
              /\ host.Secret bound = host.Secret h
              /\ host.RunningTask bound = host.RunningTask h
              /\ host.Status bound = host.Status h)
          /\ (host.Id stored = host.Id h'
              /\ host.Secret stored = host.Secret h'
              /\ host.RunningTask stored = host.RunningTask h'
              /\ host.Status stored = host.Status h')).
Proof.
  intros Hid Hfind Hsec Hrun.
  assert (Hs : negb (String.eqb (suppliedHostSecret r) "")
               && negb (String.eqb (suppliedHostSecret r) (host.Secret h))
               = false).
  { destruct Hsec as [-> | ->]; [done|].
    rewrite String.eqb_refl. by rewrite andb_false_r. }
  assert (Hm : match ctxTask r with
               | Some t => negb (String.eqb (host.RunningTask h) (task.Id t))
               | None => false
               end = false).
  { destruct (ctxTask r) as [t|]; [|done].
    rewrite (Hrun t eq_refl), String.eqb_refl. done. }
  split.
  - intros e He. rewrite checkHost_unfold, (eqb_false_of_neq _ _ Hid).
    unfold checkHost_resolved. rewrite Hfind. fold (suppliedHostSecret r).
    rewrite Hs, Hm. unfold UpdateLastCommunicated. by rewrite He.
  - intros h' He Hin.
    exists (host.with_LastCommunicationTime h (now w)),
           (host.with_LastCommunicationTime h' (now w)).
    split.
    { rewrite checkHost_unfold, (eqb_false_of_neq _ _ Hid).
      unfold checkHost_resolved. rewrite Hfind. fold (suppliedHostSecret r).
      rewrite Hs, Hm. unfold UpdateLastCommunicated, host_UpdateOne.
      by rewrite He, Hin. }
    split; [reflexivity|]. split; [reflexivity|].
    split; [reflexivity|]. split; [reflexivity|].
    split; by repeat split.
Qed.

Lemma checkHost_stamp_is_best_effort_witness :
  requestHostId req_h1_no_secret <> ""
  /\ host_FindOne world_no_stamp (requestHostId req_h1_no_secret)
     = (Some h1, None)
  /\ UpdateLastCommunicated_err (faults world_no_stamp) = Some "write conflict"
  /\ checkHost downstream req_h1_no_secret world_no_stamp
     = downstream (set_ctxHost req_h1_no_secret h1)
         (grip_log Warning
            ("Could not update host last communication time for "
             ++ host.Id h1 ++ ": " ++ "write conflict") world_no_stamp)
  /\ host_FindOne world0 (requestHostId req_h1_no_secret) = (Some h1, None)
  /\ UpdateLastCommunicated_err (faults world0) = None
  /\ hosts world0 !! host.Id h1 = Some h1
  /\ host.LastCommunicationTime h1 = 500%Z
  /\ exists bound stored,
       checkHost downstream req_h1_no_secret world0
       = downstream (set_ctxHost req_h1_no_secret bound)
           (with_hosts world0 (<[host.Id h1 := stored]> (hosts world0)))
       /\ host.LastCommunicationTime bound = 1000%Z
       /\ host.LastCommunicationTime stored = 1000%Z.
Proof.
  assert (H1 : requestHostId req_h1_no_secret <> "") by (vm_compute; discriminate).
  assert (H2 : host_FindOne world_no_stamp (requestHostId req_h1_no_secret)
               = (Some h1, None)) by (vm_compute; reflexivity).
  assert (H3 : UpdateLastCommunicated_err (faults world_no_stamp)
               = Some "write conflict") by reflexivity.
  assert (H4 : host_FindOne world0 (requestHostId req_h1_no_secret)
               = (Some h1, None)) by (vm_compute; reflexivity).
  assert (H5 : UpdateLastCommunicated_err (faults world0) = None) by reflexivity.
  assert (H6 : hosts world0 !! host.Id h1 = Some h1) by (vm_compute; reflexivity).
  assert (H7 : host.LastCommunicationTime h1 = 500%Z) by reflexivity.
  assert (Hsec : suppliedHostSecret req_h1_no_secret = ""
                 \/ suppliedHostSecret req_h1_no_secret = host.Secret h1)
    by (left; vm_compute; reflexivity).
  assert (Hrun : forall t, ctxTask req_h1_no_secret = Some t ->
                           host.RunningTask h1 = task.Id t)
    by (intros t Ht; discriminate Ht).
  refine (conj H1 (conj H2 (conj H3 (conj _ (conj H4 (conj H5 (conj H6
            (conj H7 _)))))))).
  - exact (proj1 (checkHost_stamp_is_best_effort downstream req_h1_no_secret
                    world_no_stamp h1 H1 H2 Hsec Hrun) _ H3).
  - destruct (proj2 (checkHost_stamp_is_best_effort downstream
                       req_h1_no_secret world0 h1 H1 H4 Hsec Hrun) h1 H5 H6)
      as (bound & stored & Ha & _ & _ & Hb & Hc & _).
    exact (ex_intro _ bound (ex_intro _ stored (conj Ha (conj Hb Hc)))).
Defined.

(** ** The gates composed *)

Lemma LoggedError_not_panicked r w code err :
  panicked (snd (LoggedError r w code err)) = false.
Proof. unfold LoggedError. by destruct (HasPrefix _ _). Qed.

(** [checkHost] answers an error itself or runs the downstream handler on a
    request that differs from the one it got by the bound host at most. *)
Lemma checkHost_cases next r w :
  (exists code msg, checkHost next r w = LoggedError r w code msg)
  \/ (exists r' w',
        checkHost next r w = next r' w'
        /\ ctxTask r' = ctxTask r /\ pluginTask r' = pluginTask r
        /\ Vars r' = Vars r /\ Header r' = Header r
        /\ Body r' = Body r /\ BodyErr r' = BodyErr r).
Proof.
  rewrite checkHost_unfold.
  destruct (String.eqb (requestHostId r) ""); [right; by eexists _, _|].
  unfold checkHost_resolved.
  destruct (host_FindOne w (requestHostId r)) as [[h|] [e|]];
    try (left; by eexists _, _).
  destruct (negb (String.eqb (index (Header r) evergreen.HostSecretHeader) "")
            && negb (String.eqb (index (Header r) evergreen.HostSecretHeader)
                                (host.Secret h)));
    [left; by eexists _, _|].
  destruct (match ctxTask r with
            | Some t => negb (String.eqb (host.RunningTask h) (task.Id t))
            | None => false
            end); [left; by eexists _, _|].
  destruct (UpdateLastCommunicated h w) as [[w1 h1] uerr].
  right. by eexists _, _.
Qed.

(** [checkTask] answers itself, without a panic, or runs the downstream
    handler on a request with a task bound. *)
Lemma checkTask_cases checkSecret next r w :
  panicked (snd (checkTask checkSecret next r w)) = false
  \/ (exists r' w',
        checkTask checkSecret next r w = next r' w' /\ GetTask r' <> None).
Proof.
  unfold checkTask.
  destruct (String.eqb (index (Vars r) "taskId") "");
    [left; apply LoggedError_not_panicked|].
  destruct (task_FindOne w (index (Vars r) "taskId")) as [[t|] [e|]];
    try (left; apply LoggedError_not_panicked).
  destruct (checkSecret && _); [by left|].
  right. by eexists _, _.
Qed.

(** X5: a handler that does not panic when a task is bound does not panic
    behind the gate: neither [checkTask] alone nor [checkTask] around
    [checkHost], the wiring of the agent's task routes, lets a request
    without a bound task through to it. *)
Theorem taskRoute_never_panics (H : HandlerFunc) checkSecret r w :
  (forall r w, GetTask r <> None -> panicked (snd (H r w)) = false) ->
  panicked (snd (taskRoute checkSecret H r w)) = false
  /\ panicked (snd (checkTask checkSecret H r w)) = false.
Proof.
  intros HH. split.
  - unfold taskRoute.
    destruct (checkTask_cases checkSecret (checkHost H) r w)
      as [Hl | (r1 & w1 & -> & Ht)]; [done|].
    destruct (checkHost_cases H r1 w1)
      as [(code & msg & ->) | (r2 & w2 & -> & Hc & _)].
    + apply LoggedError_not_panicked.
    + apply HH. unfold GetTask in *. by rewrite Hc.
  - destruct (checkTask_cases checkSecret H r w)
      as [Hl | (r1 & w1 & -> & Ht)]; [done|]. by apply HH.
Qed.

Lemma Heartbeat_needs_task_only r w :
  GetTask r <> None -> panicked (snd (Heartbeat r w)) = false.
Proof.
  intros Ht. unfold Heartbeat, MustHaveTask.
  destruct (GetTask r); [|done]. by destruct (UpdateHeartbeat _ _).
Qed.

Lemma taskRoute_never_panics_witness :
  (forall r w, GetTask r <> None -> panicked (snd (Heartbeat r w)) = false)
  /\ panicked (snd (taskRoute true Heartbeat request0 world0)) = false.
Proof.
  refine (conj Heartbeat_needs_task_only _).
  exact (proj1 (taskRoute_never_panics Heartbeat true request0 world0
                  Heartbeat_needs_task_only)).
Defined.

(** X6: an agent that names an existing task with its secret and the host
    that runs it, with that host's secret or none, gets through both gates:
    the downstream handler runs with the stored task and the host bound,
    and the only change to the world is the stored host, whose
    last-communication time now reads the current time, as does that of
    the bound host; id, secret, running task and status of both are those
    of the host as it was read. *)
Theorem taskRoute_authenticated_agent next r w t h :
  index (Vars r) "taskId" <> "" ->
  task_FindOne w (index (Vars r) "taskId") = (Some t, None) ->
  index (Header r) evergreen.TaskSecretHeader = task.Secret t ->
  requestHostId r <> "" ->
  host_FindOne w (requestHostId r) = (Some h, None) ->
  suppliedHostSecret r = "" \/ suppliedHostSecret r = host.Secret h ->
  host.RunningTask h = task.Id t ->
  UpdateLastCommunicated_err (faults w) = None ->
  hosts w !! host.Id h = Some h ->
  exists r' stamped,
    taskRoute true next r w
    = next r' (with_hosts w (<[host.Id h := stamped]> (hosts w)))
    /\ stamped = host.with_LastCommunicationTime h (now w)
    /\ GetTask r' = Some t
    /\ GetHost r' = Some stamped
    /\ host.LastCommunicationTime stamped = now w
    /\ (host.Id stamped = host.Id h
        /\ host.Secret stamped = host.Secret h
        /\ host.RunningTask stamped = host.RunningTask h
        /\ host.Status stamped = host.Status h)
    /\ Vars r' = Vars r /\ Header r' = Header r /\ Body r' = Body r.
Proof.
  intros Hid Hfind Hsec Hh Hhfind Hhsec Hrun Hup Hin.
  unfold taskRoute, checkTask.
  rewrite (eqb_false_of_neq _ _ Hid), Hfind, Hsec, String.eqb_refl.
  cbn [andb negb].
  set (r1 := set_pluginTask (set_ctxTask r t) t).
  rewrite checkHost_unfold.
  change (requestHostId r1) with (requestHostId r).
  rewrite (eqb_false_of_neq _ _ Hh).
  rewrite (checkHost_resolved_proceeds next (requestHostId r) r1 w h t
             Hhfind Hhsec eq_refl Hrun Hup Hin).
  eexists _, _. split; [reflexivity|]. split; [reflexivity|].
  split; [reflexivity|]. split; [reflexivity|]. split; [reflexivity|].
  split; by repeat split.
Qed.

Lemma taskRoute_authenticated_agent_witness :
  index (Vars req_agent_heartbeat) "taskId" <> ""
  /\ task_FindOne world0 (index (Vars req_agent_heartbeat) "taskId")
     = (Some t1, None)
  /\ index (Header req_agent_heartbeat) evergreen.TaskSecretHeader
     = task.Secret t1
  /\ requestHostId req_agent_heartbeat <> ""
  /\ host_FindOne world0 (requestHostId req_agent_heartbeat) = (Some h1, None)
  /\ suppliedHostSecret req_agent_heartbeat = host.Secret h1
  /\ host.RunningTask h1 = task.Id t1
  /\ UpdateLastCommunicated_err (faults world0) = None
  /\ hosts world0 !! host.Id h1 = Some h1
  /\ host.LastCommunicationTime h1 = 500%Z
  /\ exists r' stamped,
       taskRoute true downstream req_agent_heartbeat world0
       = downstream r'
           (with_hosts world0 (<[host.Id h1 := stamped]> (hosts world0)))
       /\ GetTask r' = Some t1
       /\ GetHost r' = Some stamped
       /\ host.LastCommunicationTime stamped = 1000%Z.
Proof.
  assert (H1 : index (Vars req_agent_heartbeat) "taskId" <> "")
    by (vm_compute; discriminate).
  assert (H2 : task_FindOne world0 (index (Vars req_agent_heartbeat) "taskId")
               = (Some t1, None)) by (vm_compute; reflexivity).
  assert (H3 : index (Header req_agent_heartbeat) evergreen.TaskSecretHeader
               = task.Secret t1) by (vm_compute; reflexivity).
  assert (H4 : requestHostId req_agent_heartbeat <> "")
    by (vm_compute; discriminate).
  assert (H5 : host_FindOne world0 (requestHostId req_agent_heartbeat)
               = (Some h1, None)) by (vm_compute; reflexivity).
  assert (H6 : suppliedHostSecret req_agent_heartbeat = host.Secret h1)
    by (vm_compute; reflexivity).
  assert (H7 : host.RunningTask h1 = task.Id t1) by reflexivity.
  assert (H8 : UpdateLastCommunicated_err (faults world0) = None) by reflexivity.
  assert (H9 : hosts world0 !! host.Id h1 = Some h1) by (vm_compute; reflexivity).
  assert (H10 : host.LastCommunicationTime h1 = 500%Z) by reflexivity.
  refine (conj H1 (conj H2 (conj H3 (conj H4 (conj H5 (conj H6 (conj H7
            (conj H8 (conj H9 (conj H10 _)))))))))).
  destruct (taskRoute_authenticated_agent downstream req_agent_heartbeat
              world0 t1 h1 H1 H2 H3 H4 H5 (or_intror H6) H7 H8 H9)
    as (r' & stamped & Ha & _ & Hb & Hc & Hd & _).
  exact (ex_intro _ r' (ex_intro _ stamped (conj Ha (conj Hb (conj Hc Hd))))).
Defined.



(** ** The provisioning callback: further properties *)

Lemma getHostFromRequest_found r w h :
  index (Vars r) "tag" <> "" ->
  host_FindOne w (index (Vars r) "tag") = (Some h, None) ->
  getHostFromRequest r w = inl h.
Proof.
  intros Hne Hfind. unfold getHostFromRequest.
  by rewrite (length_eqb_0_of_nonempty _ Hne), Hfind.
Qed.

Lemma LoggedError_same_stores r w code err :
  same_stores w (fst (LoggedError r w code err)).
Proof. rewrite LoggedError_world. by repeat split. Qed.

(** [LoggedError] reads the headers of the request for [accept] only. *)
Lemma LoggedError_header r hdr w code err :
  index hdr "accept" = index (Header r) "accept" ->
  LoggedError (with_Header r hdr) w code err = LoggedError r w code err.
Proof. intros H. unfold LoggedError. cbn [Header with_Header Method URL]. by rewrite H. Qed.

(** X8: when the callback names no host, or a host the lookup does not
    return, [hostReady] answers 400 in plain text and stops: nobody is
    mailed, no event is logged and no host is touched. *)
Theorem hostReady_unknown_host as_ r w :
  index (Vars r) "tag" = ""
  \/ fst (host_FindOne w (index (Vars r) "tag")) = None ->
  exists msg,
    hostReady as_ r w
    = (grip_log Error msg w, http_Error msg http.StatusBadRequest)
    /\ same_stores w (fst (hostReady as_ r w)).
Proof.
  intros H. unfold hostReady, getHostFromRequest.
  destruct H as [H | H].
  - rewrite H. cbn [String.length Nat.eqb fst]. eexists. by repeat split.
  - destruct (String.length (index (Vars r) "tag") =? 0)%nat;
      [eexists; by repeat split|].
    destruct (host_FindOne w (index (Vars r) "tag")) as [oh oe].
    cbn [fst] in H. subst oh. eexists. by repeat split.
Qed.

Lemma hostReady_unknown_host_witness :
  index (Vars req_ready_ghost) "tag" = "ghost"
  /\ fst (host_FindOne world0 (index (Vars req_ready_ghost) "tag")) = None
  /\ exists msg,
       hostReady (mkAPIServer "https://evergreen.example.net")
         req_ready_ghost world0
       = (grip_log Error msg world0, http_Error msg http.StatusBadRequest).
Proof.
  assert (H0 : index (Vars req_ready_ghost) "tag" = "ghost")
    by (vm_compute; reflexivity).
  assert (H : fst (host_FindOne world0 (index (Vars req_ready_ghost) "tag"))
              = None) by (vm_compute; reflexivity).
  refine (conj H0 (conj H _)).
  destruct (hostReady_unknown_host
              (mkAPIServer "https://evergreen.example.net") req_ready_ghost
              world0 (or_intror H)) as (msg & Ha & _).
  exact (ex_intro _ msg Ha).
Defined.

(** X9: on a reported failure the administrators are mailed before the
    setup log is read. When reading the body fails the answer is 500; by
    then one mail has been attempted, but no event is logged and the host
    keeps the status it had. *)
Theorem hostReady_failed_body_unreadable as_ r w h e :
  index (Vars r) "tag" <> "" ->
  host_FindOne w (index (Vars r) "tag") = (Some h, None) ->
  index (Vars r) "status" = evergreen.HostStatusFailed ->
  BodyErr r = Some e ->
  status_of (snd (hostReady as_ r w)) = Some http.StatusInternalServerError
  /\ events (fst (hostReady as_ r w)) = events w
  /\ hosts (fst (hostReady as_ r w)) = hosts w
  /\ exists subject message,
       mail (fst (hostReady as_ r w)) = (mail w ++ [(subject, message)])%list.
Proof.
  intros Hne Hfind Hst Hbody. unfold hostReady.
  rewrite (getHostFromRequest_found _ _ _ Hne Hfind), Hst, String.eqb_refl.
  unfold ReadAll. rewrite Hbody.
  rewrite LoggedError_status, LoggedError_world.
  match goal with
  | |- context [notify_or_log ?s ?m ?w0] =>
      destruct (notify_or_log_frame s m w0) as (Hf & Hh & He & Hn & Hm)
  end.
  cbn [grip_log with_grip events hosts mail] in *.
  rewrite He, Hh, Hm. split; [done|]. split; [done|]. split; [done|].
  by eexists _, _.
Qed.

Lemma hostReady_failed_body_unreadable_witness :
  index (Vars req_ready_failed_broken_body) "tag" <> ""
  /\ host_FindOne world0 (index (Vars req_ready_failed_broken_body) "tag")
     = (Some h1, None)
  /\ index (Vars req_ready_failed_broken_body) "status"
     = evergreen.HostStatusFailed
  /\ BodyErr req_ready_failed_broken_body = Some "unexpected EOF"
  /\ status_of (snd (hostReady (mkAPIServer "https://evergreen.example.net")
                       req_ready_failed_broken_body world0))
     = Some http.StatusInternalServerError.
Proof.
  assert (H1 : index (Vars req_ready_failed_broken_body) "tag" <> "")
    by (vm_compute; discriminate).
  assert (H2 : host_FindOne world0 (index (Vars req_ready_failed_broken_body) "tag")
               = (Some h1, None)) by (vm_compute; reflexivity).
  assert (H3 : index (Vars req_ready_failed_broken_body) "status"
               = evergreen.HostStatusFailed) by (vm_compute; reflexivity).
  assert (H4 : BodyErr req_ready_failed_broken_body = Some "unexpected EOF")
    by reflexivity.
  refine (conj H1 (conj H2 (conj H3 (conj H4 _)))).
  exact (proj1 (hostReady_failed_body_unreadable
                  (mkAPIServer "https://evergreen.example.net")
                  req_ready_failed_broken_body world0 h1 _ H1 H2 H3 H4)).
Defined.

(** X10: on a reported failure the event is logged before the host is
    moved. When the move to the unprovisioned state fails the answer is
    500, the host keeps the status it had, and the HOST_PROVISION_FAILED
    event with the setup log is in the log all the same. *)
Theorem hostReady_failed_status_not_written as_ r w h e :
  index (Vars r) "tag" <> "" ->
  host_FindOne w (index (Vars r) "tag") = (Some h, None) ->
  index (Vars r) "status" = evergreen.HostStatusFailed ->
  BodyErr r = None ->
  LogEvent_err (faults w) = None ->
  SetUnprovisioned_err (faults w) = Some e ->
  status_of (snd (hostReady as_ r w)) = Some http.StatusInternalServerError
  /\ hosts (fst (hostReady as_ r w)) = hosts w
  /\ events (fst (hostReady as_ r w))
     = (events w
        ++ [event.mkEvent (now w) (host.Id h) event.EventHostProvisionFailed
              (event.mkData "HOST" "" "" (Body r) "" "" "" "" "" false 0%Z)])%list.
Proof.
  intros Hne Hfind Hst Hbody Hlog Hset. unfold hostReady.
  rewrite (getHostFromRequest_found _ _ _ Hne Hfind), Hst, String.eqb_refl.
  unfold ReadAll. rewrite Hbody.
  match goal with
  | |- context [notify_or_log ?s ?m ?w0] =>
      destruct (notify_or_log_frame s m w0) as (Hf & Hh & He & Hn & Hm);
      set (w1 := notify_or_log s m w0) in *
  end.
  cbn [grip_log with_grip faults hosts events now mail] in Hf, Hh, He, Hn, Hm.
  unfold LogProvisionFailed.
  rewrite LogHostEvent_stored by (by rewrite Hf).
  unfold SetUnprovisioned. cbn [faults with_events]. rewrite Hf, Hset.
  rewrite LoggedError_status, LoggedError_world.
  cbn [grip_log with_grip hosts events with_events].
  rewrite Hh, He, Hn. done.
Qed.

Lemma hostReady_failed_status_not_written_witness :
  index (Vars req_ready_failed) "tag" <> ""
  /\ host_FindOne world_no_unprovision (index (Vars req_ready_failed) "tag")
     = (Some h1, None)
  /\ index (Vars req_ready_failed) "status" = evergreen.HostStatusFailed
  /\ BodyErr req_ready_failed = None
  /\ LogEvent_err (faults world_no_unprovision) = None
  /\ SetUnprovisioned_err (faults world_no_unprovision) = Some "write conflict"
  /\ status_of (snd (hostReady (mkAPIServer "https://evergreen.example.net")
                       req_ready_failed world_no_unprovision))
     = Some http.StatusInternalServerError.
Proof.
  assert (H1 : index (Vars req_ready_failed) "tag" <> "")
    by (vm_compute; discriminate).
  assert (H2 : host_FindOne world_no_unprovision
                 (index (Vars req_ready_failed) "tag") = (Some h1, None))
    by (vm_compute; reflexivity).
  assert (H3 : index (Vars req_ready_failed) "status" = evergreen.HostStatusFailed)
    by (vm_compute; reflexivity).
  assert (H4 : BodyErr req_ready_failed = None) by reflexivity.
  assert (H5 : LogEvent_err (faults world_no_unprovision) = None) by reflexivity.
  assert (H6 : SetUnprovisioned_err (faults world_no_unprovision)
               = Some "write conflict") by reflexivity.
  refine (conj H1 (conj H2 (conj H3 (conj H4 (conj H5 (conj H6 _)))))).
  exact (proj1 (hostReady_failed_status_not_written
                  (mkAPIServer "https://evergreen.example.net")
                  req_ready_failed world_no_unprovision h1 _
                  H1 H2 H3 H4 H5 H6)).
Defined.

(** X11: every status other than [failed] is taken for success. With the
    provider known and the DNS name resolved, [hostReady] hands the host to
    [MarkAsProvisioned]; when that succeeds the answer is 200 with an empty
    body, and [hostReady] adds one info line to the world
    [MarkAsProvisioned] left and nothing else: it writes no host, logs no
    event and mails nobody itself, and the DNS name it resolved goes into
    that line only. *)
Theorem hostReady_marks_provisioned as_ r w h m dns :
  index (Vars r) "tag" <> "" ->
  host_FindOne w (index (Vars r) "tag") = (Some h, None) ->
  index (Vars r) "status" <> evergreen.HostStatusFailed ->
  providers w !! host.Provider h = Some m ->
  GetDNSName m h = (dns, None) ->
  snd (MarkAsProvisioned h w) = None ->
  hostReady as_ r w
  = (grip_log Info
       ("Successfully marked host '" ++ host.Id h ++ "' with dns '" ++ dns
        ++ "' as provisioned")
       (fst (MarkAsProvisioned h w)),
     Responded (mkResponse http.StatusOK NoBody))
  /\ same_stores (fst (MarkAsProvisioned h w)) (fst (hostReady as_ r w)).
Proof.
  intros Hne Hfind Hst Hp Hdns Hmark.
  assert (Heq : hostReady as_ r w
                = (grip_log Info
                     ("Successfully marked host '" ++ host.Id h
                      ++ "' with dns '" ++ dns ++ "' as provisioned")
                     (fst (MarkAsProvisioned h w)),
                   Responded (mkResponse http.StatusOK NoBody))).
  { unfold hostReady.
    rewrite (getHostFromRequest_found _ _ _ Hne Hfind),
      (eqb_false_of_neq _ _ Hst).
    unfold GetCloudManager. rewrite Hp, Hdns.
    destruct (MarkAsProvisioned h w) as [w1 oe]. cbn [fst snd] in *.
    by subst oe. }
  rewrite Heq. split; [reflexivity|]. by repeat split.
Qed.

Lemma hostReady_marks_provisioned_witness :
  index (Vars req_ready_success) "tag" <> ""
  /\ host_FindOne world_ec2 (index (Vars req_ready_success) "tag")
     = (Some h1, None)
  /\ index (Vars req_ready_success) "status" <> evergreen.HostStatusFailed
  /\ providers world_ec2 !! host.Provider h1 = Some ec2
  /\ GetDNSName ec2 h1 = ("h1.compute.example.net", None)
  /\ snd (MarkAsProvisioned h1 world_ec2) = None
  /\ hostReady (mkAPIServer "https://evergreen.example.net")
       req_ready_success world_ec2
     = (grip_log Info
          "Successfully marked host 'h1' with dns 'h1.compute.example.net' as provisioned"
          (fst (MarkAsProvisioned h1 world_ec2)),
        Responded (mkResponse http.StatusOK NoBody)).
Proof.
  assert (H1 : index (Vars req_ready_success) "tag" <> "")
    by (vm_compute; discriminate).
  assert (H2 : host_FindOne world_ec2 (index (Vars req_ready_success) "tag")
               = (Some h1, None)) by (vm_compute; reflexivity).
  assert (H3 : index (Vars req_ready_success) "status"
               <> evergreen.HostStatusFailed) by (vm_compute; discriminate).
  assert (H4 : providers world_ec2 !! host.Provider h1 = Some ec2)
    by (vm_compute; reflexivity).
  assert (H5 : GetDNSName ec2 h1 = ("h1.compute.example.net", None))
    by reflexivity.
  assert (H6 : snd (MarkAsProvisioned h1 world_ec2) = None)
    by (vm_compute; reflexivity).
  refine (conj H1 (conj H2 (conj H3 (conj H4 (conj H5 (conj H6 _)))))).
  exact (proj1 (hostReady_marks_provisioned
                  (mkAPIServer "https://evergreen.example.net")
                  req_ready_success world_ec2 h1 ec2 _
                  H1 H2 H3 H4 H5 H6)).
Defined.

(** X12: when no cloud manager is known for the host's provider, a
    reported success is answered 500 and one mail to the administrators is
    attempted; the host keeps its status and no event is logged. *)
Theorem hostReady_unknown_provider as_ r w h :
  index (Vars r) "tag" <> "" ->
  host_FindOne w (index (Vars r) "tag") = (Some h, None) ->
  index (Vars r) "status" <> evergreen.HostStatusFailed ->
  providers w !! host.Provider h = None ->
  status_of (snd (hostReady as_ r w)) = Some http.StatusInternalServerError
  /\ hosts (fst (hostReady as_ r w)) = hosts w
  /\ events (fst (hostReady as_ r w)) = events w
  /\ exists subject message,
       mail (fst (hostReady as_ r w)) = (mail w ++ [(subject, message)])%list.
Proof.
  intros Hne Hfind Hst Hp. unfold hostReady.
  rewrite (getHostFromRequest_found _ _ _ Hne Hfind), (eqb_false_of_neq _ _ Hst).
  unfold GetCloudManager. rewrite Hp.
  match goal with
  | |- context [LoggedError r w ?c ?e] =>
      pose proof (LoggedError_status r w c e) as Hs;
      pose proof (LoggedError_world r w c e) as Hw;
      destruct (LoggedError r w c e) as [w1 out]
  end.
  cbn [fst snd] in *. subst w1.
  match goal with
  | |- context [notify_or_log ?s ?m ?w0] =>
      destruct (notify_or_log_frame s m w0) as (Hf & Hh & He & Hn & Hm)
  end.
  cbn [grip_log with_grip events hosts mail] in *.
  rewrite Hh, He, Hm. split; [done|]. split; [done|]. split; [done|].
  by eexists _, _.
Qed.

Lemma hostReady_unknown_provider_witness :
  index (Vars req_ready_success) "tag" <> ""
  /\ host_FindOne world0 (index (Vars req_ready_success) "tag")
     = (Some h1, None)
  /\ index (Vars req_ready_success) "status" <> evergreen.HostStatusFailed
  /\ providers world0 !! host.Provider h1 = None
  /\ status_of (snd (hostReady (mkAPIServer "https://evergreen.example.net")
                       req_ready_success world0))
     = Some http.StatusInternalServerError.
Proof.
  assert (H1 : index (Vars req_ready_success) "tag" <> "")
    by (vm_compute; discriminate).
  assert (H2 : host_FindOne world0 (index (Vars req_ready_success) "tag")
               = (Some h1, None)) by (vm_compute; reflexivity).
  assert (H3 : index (Vars req_ready_success) "status"
               <> evergreen.HostStatusFailed) by (vm_compute; discriminate).
  assert (H4 : providers world0 !! host.Provider h1 = None)
    by (vm_compute; reflexivity).
  refine (conj H1 (conj H2 (conj H3 (conj H4 _)))).
  exact (proj1 (hostReady_unknown_provider
                  (mkAPIServer "https://evergreen.example.net")
                  req_ready_success world0 h1 H1 H2 H3 H4)).
Defined.

(** X13: when the cloud manager cannot resolve the DNS name, a reported
    success is answered 500 through [LoggedError] and nothing else happens:
    the host is not marked provisioned, no event is logged and nobody is
    mailed. *)
Theorem hostReady_dns_failure as_ r w h m dns e :
  index (Vars r) "tag" <> "" ->
  host_FindOne w (index (Vars r) "tag") = (Some h, None) ->
  index (Vars r) "status" <> evergreen.HostStatusFailed ->
  providers w !! host.Provider h = Some m ->
  GetDNSName m h = (dns, Some e) ->
  hostReady as_ r w = LoggedError r w http.StatusInternalServerError e
  /\ same_stores w (fst (hostReady as_ r w)).
Proof.
  intros Hne Hfind Hst Hp Hdns.
  assert (Heq : hostReady as_ r w
                = LoggedError r w http.StatusInternalServerError e).
  { unfold hostReady.
    rewrite (getHostFromRequest_found _ _ _ Hne Hfind),
      (eqb_false_of_neq _ _ Hst).
    unfold GetCloudManager. by rewrite Hp, Hdns. }
  rewrite Heq. split; [done|]. apply LoggedError_same_stores.
Qed.

Lemma hostReady_dns_failure_witness :
  index (Vars req_ready_success) "tag" <> ""
  /\ host_FindOne world_flaky (index (Vars req_ready_success) "tag")
     = (Some h1, None)
  /\ index (Vars req_ready_success) "status" <> evergreen.HostStatusFailed
  /\ providers world_flaky !! host.Provider h1 = Some flaky
  /\ GetDNSName flaky h1 = ("", Some "dns: timeout")
  /\ hostReady (mkAPIServer "https://evergreen.example.net")
       req_ready_success world_flaky
     = LoggedError req_ready_success world_flaky
         http.StatusInternalServerError "dns: timeout".
Proof.
  assert (H1 : index (Vars req_ready_success) "tag" <> "")
    by (vm_compute; discriminate).
  assert (H2 : host_FindOne world_flaky (index (Vars req_ready_success) "tag")
               = (Some h1, None)) by (vm_compute; reflexivity).
  assert (H3 : index (Vars req_ready_success) "status"
               <> evergreen.HostStatusFailed) by (vm_compute; discriminate).
  assert (H4 : providers world_flaky !! host.Provider h1 = Some flaky)
    by (vm_compute; reflexivity).
  assert (H5 : GetDNSName flaky h1 = ("", Some "dns: timeout")) by reflexivity.
  refine (conj H1 (conj H2 (conj H3 (conj H4 (conj H5 _))))).
  exact (proj1 (hostReady_dns_failure
                  (mkAPIServer "https://evergreen.example.net")
                  req_ready_success world_flaky h1 flaky _ _
                  H1 H2 H3 H4 H5)).
Defined.

(** X14: [hostReady] is not behind the gate and reads no secret: of the
    headers of the request only [accept] matters. Replacing the headers by
    any others with the same [accept] value, a host secret included or
    left out, changes neither the answer nor the world. *)
Theorem hostReady_reads_no_secret as_ r w hdr :
  index hdr "accept" = index (Header r) "accept" ->
  hostReady as_ (with_Header r hdr) w = hostReady as_ r w.
Proof.
  intros Hacc. unfold hostReady.
  change (getHostFromRequest (with_Header r hdr) w)
    with (getHostFromRequest r w).
  destruct (getHostFromRequest r w) as [h|e]; [|reflexivity].
  cbn [Vars with_Header Body BodyErr].
  destruct (String.eqb (index (Vars r) "status") evergreen.HostStatusFailed).
  - unfold ReadAll. destruct (BodyErr r) as [e|].
    + by apply LoggedError_header.
    + destruct (SetUnprovisioned h _) as [w1 [e|]];
        [by apply LoggedError_header | reflexivity].
  - destruct (GetCloudManager (host.Provider h) w) as [m|e].
    + destruct (GetDNSName m h) as [dns [e|]];
        [by apply LoggedError_header|].
      destruct (MarkAsProvisioned h w) as [w1 [e|]];
        [by apply LoggedError_header | reflexivity].
    + by rewrite (LoggedError_header _ _ _ _ _ Hacc).
Qed.

Lemma hostReady_reads_no_secret_witness :
  index ({[ evergreen.HostSecretHeader := "guess" ]} : gmap string string) "accept"
  = index (Header req_ready_failed) "accept"
  /\ hostReady (mkAPIServer "https://evergreen.example.net")
       (with_Header req_ready_failed {[ evergreen.HostSecretHeader := "guess" ]})
       world0
     = hostReady (mkAPIServer "https://evergreen.example.net")
         req_ready_failed world0.
Proof.
  assert (H : index ({[ evergreen.HostSecretHeader := "guess" ]}
                     : gmap string string) "accept"
              = index (Header req_ready_failed) "accept")
    by (vm_compute; reflexivity).
  refine (conj H _).
  exact (hostReady_reads_no_secret
           (mkAPIServer "https://evergreen.example.net")
           req_ready_failed world0 _ H).
Defined.

(** ** The host event log: further properties *)

(** A call either returns the world as it is or goes through
    [LogHostEvent]. *)
Lemma run_call_shape c w :
  if reaches_log c
  then exists hostId eventType data,
         run_call c w = LogHostEvent hostId eventType data w
  else run_call c w = w.
Proof.
  destruct c; cbn [reaches_log run_call]; try (by eexists _, _, _).
  unfold LogHostStatusChanged.
  destruct (String.eqb oldStatus newStatus); cbn [negb]; [done|].
  by eexists _, _, _.
Qed.

(** What one call leaves alone, and what it adds. *)
Lemma run_call_step c w :
  faults (run_call c w) = faults w /\ now (run_call c w) = now w
  /\ hosts (run_call c w) = hosts w /\ tasks (run_call c w) = tasks w
  /\ exists added,
       events (run_call c w) = (events w ++ added)%list
       /\ length added <= 1
       /\ Forall (fun e => event.Timestamp e = now w
                           /\ event.IsValid (event.Data e) = true) added.
Proof.
  pose proof (run_call_shape c w) as Hs.
  destruct (reaches_log c).
  - destruct Hs as (hostId & eventType & data & ->).
    destruct (LogEvent_err (faults w)) as [e|] eqn:He.
    + rewrite (LogHostEvent_dropped _ _ _ _ _ He).
      do 4 (split; [done|]). exists []. rewrite app_nil_r.
      split; [done|]. split; [cbn; lia|]. constructor.
    + rewrite (LogHostEvent_stored _ _ _ _ He).
      do 4 (split; [done|]). eexists [_]. split; [reflexivity|].
      split; [done|]. by repeat constructor.
  - rewrite Hs. do 4 (split; [done|]). exists []. rewrite app_nil_r.
    split; [done|]. split; [cbn; lia|]. constructor.
Qed.

(** X15: the host event log is append-only. Whatever calls of the package
    are made, in whatever order, the events that were in the log stay
    where they were; at most one event per call is added after them, each
    stamped with the current time and carrying valid host data; hosts and
    tasks are never touched. *)
Theorem host_event_log_is_append_only cs w :
  exists added,
    events (run_calls cs w) = (events w ++ added)%list
    /\ length added <= length cs
    /\ Forall (fun e => event.Timestamp e = now w
                        /\ event.IsValid (event.Data e) = true) added
    /\ hosts (run_calls cs w) = hosts w
    /\ tasks (run_calls cs w) = tasks w.
Proof.
  revert w. induction cs as [|c cs IH]; intros w.
  - exists []. cbn. rewrite app_nil_r. by repeat split.
  - cbn [run_calls fold_left]. fold (run_calls cs (run_call c w)).
    destruct (run_call_step c w) as (Hf & Hn & Hh & Ht & a1 & He1 & Hl1 & Hv1).
    destruct (IH (run_call c w)) as (a2 & He2 & Hl2 & Hv2 & Hh2 & Ht2).
    exists (a1 ++ a2)%list. rewrite He2, He1, Hh2, Ht2, Hh, Ht.
    rewrite <- app_assoc. split; [done|].
    split; [rewrite length_app; cbn [length]; lia|].
    split; [|done]. apply Forall_app. split; [done|]. by rewrite <- Hn.
Qed.

(** X16: while the event store refuses writes, no call of the package
    changes the log or any other store; every call that reaches
    [LogHostEvent] leaves one error line with the logger instead. *)
Theorem host_event_log_store_down cs w e :
  LogEvent_err (faults w) = Some e ->
  same_stores w (run_calls cs w)
  /\ length (grip (run_calls cs w))
     = length (grip w) + length (List.filter reaches_log cs).
Proof.
  revert w. induction cs as [|c cs IH]; intros w He.
  - cbn. split; [by repeat split|lia].
  - cbn [run_calls fold_left List.filter]. fold (run_calls cs (run_call c w)).
    pose proof (run_call_shape c w) as Hs.
    destruct (reaches_log c).
    + destruct Hs as (hostId & eventType & data & Hs). rewrite Hs.
      rewrite (LogHostEvent_dropped _ _ _ _ _ He).
      destruct (IH (grip_log Error ("Error logging host event: " ++ e) w) He)
        as [(H1 & H2 & H3 & H4 & H5) Hg].
      split; [by repeat split|].
      rewrite Hg. cbn [grip grip_log with_grip length].
      rewrite length_app. cbn [length]. lia.
    + rewrite Hs. by apply IH.
Qed.

Lemma host_event_log_store_down_witness :
  LogEvent_err (faults world_no_events) = Some "no reachable servers"
  /\ events (run_calls [CallCreated "h1"; CallStatusChanged "h1" "a" "a";
                        CallProvisionFailed "h1" "boot error"]
                       world_no_events)
     = events world_no_events
  /\ length (grip (run_calls [CallCreated "h1"; CallStatusChanged "h1" "a" "a";
                               CallProvisionFailed "h1" "boot error"]
                              world_no_events))
     = 2.
Proof.
  assert (H : LogEvent_err (faults world_no_events) = Some "no reachable servers")
    by reflexivity.
  refine (conj H _).
  destruct (host_event_log_store_down
              [CallCreated "h1"; CallStatusChanged "h1" "a" "a";
               CallProvisionFailed "h1" "boot error"]
              world_no_events _ H) as [(_ & _ & He & _) Hg].
  exact (conj He Hg).
Defined.

(** X17: while the event store takes writes, every call of the package
    adds exactly one event, except a status change from a status to
    itself, which adds none; nothing is written to the logger. *)
Theorem host_event_log_counts cs w :
  LogEvent_err (faults w) = None ->
  length (events (run_calls cs w))
  = length (events w) + length (List.filter reaches_log cs)
  /\ grip (run_calls cs w) = grip w.
Proof.
  revert w. induction cs as [|c cs IH]; intros w He.
  - cbn. split; [lia|done].
  - cbn [run_calls fold_left List.filter]. fold (run_calls cs (run_call c w)).
    pose proof (run_call_shape c w) as Hs.
    destruct (reaches_log c).
    + destruct Hs as (hostId & eventType & data & Hs). rewrite Hs.
      rewrite (LogHostEvent_stored _ _ _ _ He).
      match goal with
      | |- context [run_calls cs ?w1] => destruct (IH w1 He) as [Hl Hg]
      end.
      rewrite Hl, Hg. cbn [events with_events grip length].
      rewrite length_app. cbn [length]. split; [lia|done].
    + rewrite Hs. by apply IH.
Qed.

Lemma host_event_log_counts_witness :
  LogEvent_err (faults world0) = None
  /\ length (events (run_calls [CallCreated "h1"; CallStatusChanged "h1" "a" "a";
                                 CallStatusChanged "h1" "a" "b";
                                 CallTeardown "h1" "bye" true 5%Z]
                                world0))
     = 3.
Proof.
  assert (H : LogEvent_err (faults world0) = None) by reflexivity.
  refine (conj H _).
  exact (proj1 (host_event_log_counts
                  [CallCreated "h1"; CallStatusChanged "h1" "a" "a";
                   CallStatusChanged "h1" "a" "b";
                   CallTeardown "h1" "bye" true 5%Z] world0 H)).
Defined.

(** ** Test-log ingestion: further properties *)



(** X19: a body below the cap that cannot be read or decoded is answered
    400 with the reader's or decoder's error, and a log the store refuses
    is answered 500; in each case the answer goes through [LoggedError] on
    the world as it was, so no test log is stored. *)
Theorem AttachTestLog_failures_store_nothing
        (Unmarshal_TestLog : string -> model.TestLog + error) r w t :
  GetTask r = Some t ->
  (Z.of_nat (String.length (Body r)) < maxTestLogSize)%Z ->
  (forall e, BodyErr r = Some e ->
             AttachTestLog Unmarshal_TestLog r w
             = LoggedError r w http.StatusBadRequest e)
  /\ (forall e, BodyErr r = None ->
                Unmarshal_TestLog (Body r) = inr e ->
                AttachTestLog Unmarshal_TestLog r w
                = LoggedError r w http.StatusBadRequest e)
  /\ (forall log e, BodyErr r = None ->
                    Unmarshal_TestLog (Body r) = inl log ->
                    TestLog_Insert_err (faults w) = Some e ->
                    AttachTestLog Unmarshal_TestLog r w
                    = LoggedError r w http.StatusInternalServerError e).
Proof.
  intros Ht Hlen.
  assert (Hnz : (maxTestLogSize - Z.of_nat (String.length (Body r)) =? 0)%Z = false)
    by (apply Z.eqb_neq; lia).
  repeat split.
  - intros e Herr. unfold AttachTestLog, MustHaveTask. rewrite Ht.
    unfold ReadJSONInto_TestLog.
    rewrite (ReadAll_limited_short _ _ Hlen), Herr.
    cbv beta iota zeta delta [io.N]. by rewrite Hnz.
  - intros e Herr Hdec. unfold AttachTestLog, MustHaveTask. rewrite Ht.
    unfold ReadJSONInto_TestLog.
    rewrite (ReadAll_limited_short _ _ Hlen), Herr, Hdec.
    cbv beta iota zeta delta [io.N]. by rewrite Hnz.
  - intros log e Herr Hdec Hins. unfold AttachTestLog, MustHaveTask. rewrite Ht.
    unfold ReadJSONInto_TestLog.
    rewrite (ReadAll_limited_short _ _ Hlen), Herr, Hdec.
    cbv beta iota zeta delta [io.N]. rewrite Hnz.
    unfold TestLog_Insert. by rewrite Hins.
Qed.

Lemma AttachTestLog_failures_store_nothing_witness :
  GetTask (req_test_log "{") = Some t1
  /\ (Z.of_nat (String.length (Body (req_test_log "{"))) < maxTestLogSize)%Z
  /\ decode_none (Body (req_test_log "{")) = inr "unexpected end of JSON input"
  /\ AttachTestLog decode_none (req_test_log "{") world0
     = LoggedError (req_test_log "{") world0 http.StatusBadRequest
         "unexpected end of JSON input"
  /\ TestLog_Insert_err (faults world_no_test_logs) = Some "disk full"
  /\ AttachTestLog decode_any (req_test_log "{}") world_no_test_logs
     = LoggedError (req_test_log "{}") world_no_test_logs
         http.StatusInternalServerError "disk full".
Proof.
  assert (H1 : GetTask (req_test_log "{") = Some t1) by reflexivity.
  assert (H2 : (Z.of_nat (String.length (Body (req_test_log "{")))
                < maxTestLogSize)%Z) by (vm_compute; reflexivity).
  assert (H3 : decode_none (Body (req_test_log "{"))
               = inr "unexpected end of JSON input") by reflexivity.
  assert (H4 : TestLog_Insert_err (faults world_no_test_logs) = Some "disk full")
    by reflexivity.
  refine (conj H1 (conj H2 (conj H3 (conj _ (conj H4 _))))).
  - exact (proj1 (proj2 (AttachTestLog_failures_store_nothing decode_none
                           (req_test_log "{") world0 t1 H1 H2))
             _ eq_refl H3).
  - refine (proj2 (proj2 (AttachTestLog_failures_store_nothing decode_any
                            (req_test_log "{}") world_no_test_logs t1
                            eq_refl _)) _ _ eq_refl eq_refl H4).
    vm_compute. reflexivity.
Defined.

(** X20: a body of [maxTestLogSize] bytes or more is turned away on its
    size alone: the answer is 400 with the size message whether or not the
    bytes read would decode and whether or not the stream ended in an
    error, and no test log is stored. *)
Theorem AttachTestLog_size_check_comes_first
        (Unmarshal_TestLog : string -> model.TestLog + error) r w t :
  GetTask r = Some t ->
  (maxTestLogSize <= Z.of_nat (String.length (Body r)))%Z ->
  AttachTestLog Unmarshal_TestLog r w
  = LoggedError r w http.StatusBadRequest
      "test log size exceeds 16777216 bytes"
  /\ same_stores w (fst (AttachTestLog Unmarshal_TestLog r w)).
Proof.
  intros Ht Hlen.
  pose proof (AttachTestLog_full_reader Unmarshal_TestLog r w t Ht Hlen) as Heq.
  rewrite pretty_maxTestLogSize in Heq.
  split; [exact Heq|]. rewrite Heq. apply LoggedError_same_stores.
Qed.

Lemma AttachTestLog_size_check_comes_first_witness :
  GetTask (req_test_log cap_sized_body) = Some t1
  /\ (maxTestLogSize
      <= Z.of_nat (String.length (Body (req_test_log cap_sized_body))))%Z
  /\ AttachTestLog decode_none (req_test_log cap_sized_body) world0
     = LoggedError (req_test_log cap_sized_body) world0 http.StatusBadRequest
         "test log size exceeds 16777216 bytes".
Proof.
  assert (H1 : GetTask (req_test_log cap_sized_body) = Some t1) by reflexivity.
  assert (H2 : (maxTestLogSize
                <= Z.of_nat (String.length (Body (req_test_log cap_sized_body))))%Z).
  { change (Body (req_test_log cap_sized_body)) with cap_sized_body.
    rewrite cap_sized_body_length. apply Z.le_refl. }
  refine (conj H1 (conj H2 _)).
  exact (proj1 (AttachTestLog_size_check_comes_first decode_none
                  (req_test_log cap_sized_body) world0 t1 H1 H2)).
Defined.

(** ** Package cloud: further properties *)

(** X21: the seven named status codes print as seven different names, so
    a printed status identifies its code; "unknown" is printed for
    [StatusUnknown] and for every integer that is not a named code, and
    for nothing else. *)
Theorem CloudStatus_String_names :
  (forall a b,
     In a named_statuses -> In b named_statuses ->
     CloudStatus_String a = CloudStatus_String b -> a = b)
  /\ (forall s,
        CloudStatus_String s = "unknown"
        <-> s = StatusUnknown \/ ~ In s named_statuses).
Proof.
  split.
  - intros a b Ha Hb.
    cbn [In named_statuses] in Ha, Hb.
    repeat (destruct Ha as [<- | Ha]; [|]); try contradiction;
      repeat (destruct Hb as [<- | Hb]; [|]); try contradiction;
      intros H; first [reflexivity | vm_compute in H; discriminate H].
  - intros s. unfold CloudStatus_String, named_statuses, StatusUnknown,
      StatusPending, StatusInitializing, StatusFailed, StatusRunning,
      StatusStopped, StatusTerminated.
    cbn [In].
    repeat (match goal with
            | |- context [(s =? ?k)%Z] => destruct (Z.eqb_spec s k)
            end);
      (split;
       [intros H;
        first [discriminate H
              |destruct (Z.eq_dec s 0%Z) as [Hz | Hz];
               [by left | right; intros Hin; lia]]
       |intros [H | H];
        [first [reflexivity | exfalso; lia]
        |first [reflexivity | exfalso; apply H; lia]]]).
Qed.

Lemma CloudStatus_String_names_witness :
  In StatusRunning named_statuses
  /\ In StatusStopped named_statuses
  /\ CloudStatus_String StatusRunning <> CloudStatus_String StatusStopped
  /\ CloudStatus_String 42%Z = "unknown".
Proof.
  assert (H1 : In StatusRunning named_statuses) by (cbn; tauto).
  assert (H2 : In StatusStopped named_statuses) by (cbn; tauto).
  refine (conj H1 (conj H2 (conj _ _))).
  - intros H.
    pose proof (proj1 CloudStatus_String_names _ _ H1 H2 H) as Hc.
    discriminate Hc.
  - apply (proj2 CloudStatus_String_names). right.
    cbn. unfold StatusUnknown, StatusPending, StatusInitializing, StatusFailed,
      StatusRunning, StatusStopped, StatusTerminated. intuition discriminate.
Defined.

(** X22: an intent host takes its identity and its options over as they
    are: id and tag are the instance name, user and distro come from the
    distro, the provider is the given one, and the starting user, the
    user-host flag, the user data and the provision options are those of
    the options, empty or absent ones included; its termination and
    dispatch times are [util.ZeroTime], and it has no secret, no running
    task, no DNS name and no last communication. *)
Theorem NewIntent_carries_options
        (ZeroTime creationTime : Time) (d : distro.Distro)
        (instanceName provider : string) (options : cloud.HostOptions) :
  let h := NewIntent ZeroTime creationTime d instanceName provider options in
  host.Id h = instanceName /\ host.Tag h = instanceName
  /\ host.User h = distro.User d /\ host.Distro h = d
  /\ host.Provider h = provider
  /\ host.StartedBy h = cloud.UserName options
  /\ host.UserHost h = cloud.UserHost options
  /\ host.UserData h = cloud.UserData options
  /\ host.ProvisionOptions_ h = cloud.ProvisionOptions options
  /\ host.TerminationTime h = ZeroTime /\ host.TaskDispatchTime h = ZeroTime
  /\ host.Secret h = "" /\ host.RunningTask h = "" /\ host.DNS h = ""
  /\ host.LastCommunicationTime h = zeroValueTime.
Proof.
  unfold NewIntent.
  destruct options as [po dur un ud uh].
  cbn [cloud.ExpirationDuration cloud.ProvisionOptions cloud.UserData
       cloud.UserName cloud.UserHost].
  destruct (String.eqb ud "") eqn:Hud.
  - apply String.eqb_eq in Hud. subst ud.
    destruct dur, po; cbn; repeat split.
  - destruct dur, po; cbn; repeat split.
Qed.
